(** * json-logging-python: the framework registry and the logging core

    The first part embeds [src/json_logging/frameworks.py]: the function
    [register_framework_support], which validates the classes of a framework
    plugin and stores them in the shared dictionary [_framework_support_map].
    The second part models the request-scoped pieces the specification
    describes (correlation context, request instrumentation, JSON formatter),
    whose code lives in modules of the package other than [frameworks.py]. *)

From Stdlib Require Import String Ascii NArith List Bool Lia.
From stdpp Require Import base option strings gmap.
Import ListNotations.

Local Open Scope string_scope.

(** ** Python strings

    A [str] is embedded as a [string].  The embedding of [frameworks.py]
    uses nothing of a name but whether it is empty, whether it equals
    another name, its place in a message and its lower-cased form, and it
    takes [str.lower] as a parameter: any one-to-one encoding of text that
    maps concatenation to concatenation will do, such as the bytes of its
    UTF-8 form, under which ASCII text is itself.

    [ascii_lower] is one function with the properties assumed of that
    parameter: it moves the letters [A]..[Z] (codes 65..90) to [a]..[z] and
    keeps every other character.  It is used only to run the closed
    examples below, whose names are made of ASCII characters, on which it
    is what [str.lower] computes. *)

Definition ascii_lower_char (c : ascii) : ascii :=
  let n := N_of_ascii c in
  if ((65 <=? n) && (n <=? 90))%N then ascii_of_N (n + 32) else c.

Fixpoint ascii_lower (s : string) : string :=
  match s with
  | EmptyString => EmptyString
  | String c s' => String (ascii_lower_char c) (ascii_lower s')
  end.

Lemma ascii_lower_char_idemp (c : ascii) :
  ascii_lower_char (ascii_lower_char c) = ascii_lower_char c.
Proof. destruct c as [[] [] [] [] [] [] [] []]; reflexivity. Qed.

Lemma ascii_lower_idemp (s : string) :
  ascii_lower (ascii_lower s) = ascii_lower s.
Proof.
  induction s as [|c s IH]; simpl; [reflexivity|].
  now rewrite ascii_lower_char_idemp, IH.
Qed.

Lemma ascii_lower_nonempty (s : string) : s <> "" -> ascii_lower s <> "".
Proof. destruct s; simpl; congruence. Qed.

Lemma ascii_lower_empty : ascii_lower "" = "".
Proof. reflexivity. Qed.

(** ** frameworks.py *)

Module frameworks.

Section register.

(** [str.lower] of Python 3, the method line 28 calls on the name.  The
    theorems that need more of it than its being a function say so through
    these three properties: lower-casing twice is lower-casing once, and the
    result is empty exactly for the empty string. *)
Variable lower : string -> string.
Hypothesis lower_idemp : forall s, lower (lower s) = lower s.
Hypothesis lower_nonempty : forall s, s <> "" -> lower s <> "".
Hypothesis lower_empty : lower "" = "".

(** Class objects of the running program and Python's [issubclass] over
    them. *)
Context {cls : Type}.
Variable issubclass : cls -> cls -> bool.

(** The names [frameworks.py] imports from the package [json_logging]:
    the four base classes and the debug switch.  Their declarations are in
    [json_logging/__init__.py]; here they are parameters. *)
Variable RequestAdapter : cls.
Variable ResponseAdapter : cls.
Variable AppRequestInstrumentationConfigurator : cls.
Variable FrameworkConfigurator : cls.
Variable ENABLE_JSON_LOGGING_DEBUG : bool.

Inductive exception : Type :=
| RuntimeError (msg : string)
| NotSubclass (subclass superclass : cls).

(** The dictionary literal stored per framework (lines 31-36). *)
Record framework_support : Type := {
  app_configurator : option cls;
  app_request_instrumentation_configurator : cls;
  request_adapter_class : cls;
  response_adapter_class : cls
}.

(** A call of [_logger.warning(fmt, arg)], with [%s] already filled in. *)
Inductive log_call : Type :=
| warning (msg : string).

(** The two shared objects the function touches: the registry dictionary
    and the package logger (the calls it has received, oldest first). *)
Record state : Type := {
  _framework_support_map : gmap string framework_support;
  _logger : list log_call
}.

(** Computations that read and update [state] and may raise: an exception
    leaves the state as it was when it was raised. *)
Definition M (A : Type) : Type := state -> (exception + A) * state.

Definition raise {A} (e : exception) : M A := fun st => (inl e, st).

#[export] Instance M_ret : MRet M := fun A a st => (inr a, st).
#[export] Instance M_bind : MBind M := fun A B k m st =>
  match m st with
  | (inl e, st') => (inl e, st')
  | (inr a, st') => k a st'
  end.

(** A statement guarded by [if b:], or the right operand of [b and ...]
    evaluated for its effect. *)
Definition when (b : bool) (m : M unit) : M unit :=
  if b then m else mret tt.

(** [name in _framework_support_map] *)
Definition contains (name : string) : M bool :=
  fun st => (inr (bool_decide (is_Some (_framework_support_map st !! name))), st).

(** [_framework_support_map[name] = entry] *)
Definition setitem (name : string) (entry : framework_support) : M unit :=
  fun st =>
    (inr tt, {| _framework_support_map := <[name := entry]> (_framework_support_map st);
                _logger := _logger st |}).

(** [_logger.warning("Re-register framework %s", name)] *)
Definition logger_warning (name : string) : M unit :=
  fun st =>
    (inr tt, {| _framework_support_map := _framework_support_map st;
                _logger := _logger st ++ [warning ("Re-register framework " ++ name)] |}).

(** Modelled from the spec: [util.validate_subclass] is called by
    [register_framework_support] but defined in [json_logging/util.py].
    The specification calls it the dynamic subclass validation done at
    registration time, whose failure is a fatal configuration error: it
    raises when [subclass] is not a subclass of [superclass] and does
    nothing else. *)
Definition validate_subclass (subclass superclass : cls) : M unit :=
  if issubclass subclass superclass then mret tt
  else raise (NotSubclass subclass superclass).

(** Lines 8-36.  [name] is [None] or a [str], and [not name] holds of
    [None] and of the empty string; [app_configurator] is [None] or a
    class; the other three parameters are classes.  Line 30 calls the
    logger only when both operands of its [and] are truthy. *)
Definition register_framework_support
    (name : option string)
    (app_configurator : option cls)
    (app_request_instrumentation_configurator request_adapter_class
       response_adapter_class : cls) : M unit :=
  match name with
  | None | Some EmptyString =>
      raise (RuntimeError "framework name can not be null or empty")
  | Some name =>
      validate_subclass request_adapter_class RequestAdapter;;
      validate_subclass response_adapter_class ResponseAdapter;;
      validate_subclass app_request_instrumentation_configurator
        AppRequestInstrumentationConfigurator;;
      match app_configurator return M unit with
      | Some c => validate_subclass c FrameworkConfigurator
      | None => mret tt
      end;;
      let name := lower name in
      present ← contains name;
      when present
        (when ENABLE_JSON_LOGGING_DEBUG (logger_warning name));;
      setitem name
        {| app_configurator := app_configurator;
           app_request_instrumentation_configurator :=
             app_request_instrumentation_configurator;
           request_adapter_class := request_adapter_class;
           response_adapter_class := response_adapter_class |}
  end.

(** *** What a call returns and leaves behind *)

(** The four class checks of lines 22-26, as one boolean. *)
Definition valid_classes (app_configurator : option cls)
    (app_request_instrumentation_configurator request_adapter_class
       response_adapter_class : cls) : bool :=
  issubclass request_adapter_class RequestAdapter
  && issubclass response_adapter_class ResponseAdapter
  && issubclass app_request_instrumentation_configurator
       AppRequestInstrumentationConfigurator
  && match app_configurator with
     | Some c => issubclass c FrameworkConfigurator
     | None => true
     end.

Definition raised {A} (r : (exception + A) * state) : Prop :=
  exists e, r.1 = inl e.

Definition entry_of (app_configurator : option cls)
    (app_request_instrumentation_configurator request_adapter_class
       response_adapter_class : cls) : framework_support :=
  {| app_configurator := app_configurator;
     app_request_instrumentation_configurator :=
       app_request_instrumentation_configurator;
     request_adapter_class := request_adapter_class;
     response_adapter_class := response_adapter_class |}.

(** The registry as [register_framework_support] builds it: every key is a
    non-empty string in lower case, that is, one [str.lower] leaves as it
    is. *)
Definition registry_keys_lower (m : gmap string framework_support) : Prop :=
  forall k, is_Some (m !! k) -> k <> "" /\ lower k = k.

Ltac run_register :=
  unfold register_framework_support, validate_subclass, when, contains,
    setitem, logger_warning, raise, mbind, mret, M_bind, M_ret; simpl.

Lemma register_valid st n ac aric rac rsc :
  n <> "" ->
  valid_classes ac aric rac rsc = true ->
  register_framework_support (Some n) ac aric rac rsc st =
    (inr tt,
     {| _framework_support_map :=
          <[lower n := entry_of ac aric rac rsc]> (_framework_support_map st);
        _logger :=
          _logger st ++
          (if bool_decide (is_Some (_framework_support_map st !! lower n))
              && ENABLE_JSON_LOGGING_DEBUG
           then [warning ("Re-register framework " ++ lower n)] else []) |}).
Proof.
  intros Hn Hv. unfold valid_classes in Hv.
  repeat (apply andb_prop in Hv as [Hv ?]).
  destruct n as [|a n]; [congruence|].
  run_register. rewrite Hv. simpl.
  repeat match goal with H : issubclass _ _ = true |- _ => rewrite H; clear H end.
  simpl.
  assert (Hac : (match ac return M unit with
                 | Some c => if issubclass c FrameworkConfigurator
                             then fun st => (inr tt, st)
                             else fun st => (inl (NotSubclass c FrameworkConfigurator), st)
                 | None => fun st => (inr tt, st)
                 end) st = (inr tt, st)).
  { destruct ac as [c|]; [|reflexivity].
    match goal with H : issubclass c _ = true |- _ => now rewrite H end. }
  rewrite Hac.
  destruct (bool_decide _); simpl;
    [destruct ENABLE_JSON_LOGGING_DEBUG; simpl|];
    rewrite ?app_nil_r; try reflexivity.
Qed.

Lemma register_invalid st name ac aric rac rsc :
  (name = None \/ name = Some "" \/ valid_classes ac aric rac rsc = false) ->
  exists e, register_framework_support name ac aric rac rsc st = (inl e, st).
Proof.
  intros H.
  destruct name as [[|a n]|]; try (run_register; eauto; fail).
  destruct H as [H|[H|H]]; try discriminate.
  unfold valid_classes in H. run_register.
  destruct (issubclass rac RequestAdapter); simpl; eauto.
  destruct (issubclass rsc ResponseAdapter); simpl; eauto.
  destruct (issubclass aric AppRequestInstrumentationConfigurator); simpl; eauto.
  destruct ac as [c|]; simpl in H; [|discriminate].
  rewrite H. simpl. eauto.
Qed.

Lemma valid_classes_false ac aric rac rsc :
  valid_classes ac aric rac rsc = false <->
  issubclass rac RequestAdapter = false \/
  issubclass rsc ResponseAdapter = false \/
  issubclass aric AppRequestInstrumentationConfigurator = false \/
  (exists c, ac = Some c /\ issubclass c FrameworkConfigurator = false).
Proof.
  unfold valid_classes. rewrite !andb_false_iff. split.
  - intros [[[H|H]|H]|H]; auto.
    destruct ac as [c|]; [|discriminate]. right; right; right. eauto.
  - intros [H|[H|[H|(c & -> & H)]]]; auto.
Qed.

Lemma register_outcome (name : option string) ac aric rac rsc :
  (name = None \/ name = Some "" \/ valid_classes ac aric rac rsc = false) \/
  (exists n, name = Some n /\ n <> "" /\ valid_classes ac aric rac rsc = true).
Proof.
  destruct name as [[|a n]|]; auto.
  destruct (valid_classes ac aric rac rsc) eqn:Hv; auto.
  right. exists (String a n). auto.
Qed.

(** C3: a call raises if and only if the name is [None] or empty, or one of
    the three adapter/configurator classes is not a subclass of its base
    class, or [app_configurator] is a class that is not a subclass of
    [FrameworkConfigurator]; when it raises, the registry and the logger are
    exactly as before the call; when it does not, the entry built from the
    arguments is stored under the lower-cased name. *)
Theorem register_framework_support_raises_iff st name ac aric rac rsc :
  let r := register_framework_support name ac aric rac rsc st in
  (raised r <->
     name = None \/ name = Some "" \/
     issubclass rac RequestAdapter = false \/
     issubclass rsc ResponseAdapter = false \/
     issubclass aric AppRequestInstrumentationConfigurator = false \/
     (exists c, ac = Some c /\ issubclass c FrameworkConfigurator = false))
  /\ (raised r -> r.2 = st)
  /\ (~ raised r ->
        exists n, name = Some n /\
          _framework_support_map r.2 =
            <[lower n := entry_of ac aric rac rsc]> (_framework_support_map st)).
Proof.
  cbv zeta. rewrite <- valid_classes_false.
  destruct (register_outcome name ac aric rac rsc) as [Hbad|(n & -> & Hn & Hv)].
  - destruct (register_invalid st name ac aric rac rsc Hbad) as [e He].
    rewrite He. unfold raised; simpl. split; [|split].
    + split; [intros _; exact Hbad | eauto].
    + reflexivity.
    + intros Hno. exfalso. eauto.
  - rewrite (register_valid st n ac aric rac rsc Hn Hv).
    unfold raised; simpl. split; [|split].
    + split.
      * intros [e He]. discriminate.
      * intros [H|[H|H]]; congruence.
    + intros [e He]. discriminate.
    + intros _. eauto.
Qed.

(** C4, as amended: in a registry built by this function, for a key [k]
    already present, a name that is [k] in any letter case (its lower-cased
    form is that of [k], by [str.lower]) and classes that pass the checks,
    the call returns normally and the key then holds the newly supplied
    classes; the logger receives the warning when
    [ENABLE_JSON_LOGGING_DEBUG] is true and nothing when it is false.  Of
    [str.lower] this uses only that the empty string stays empty. *)
Theorem reregister_overwrites_and_warns_when_debug st k name ac aric rac rsc :
  registry_keys_lower (_framework_support_map st) ->
  is_Some (_framework_support_map st !! k) ->
  lower name = lower k ->
  valid_classes ac aric rac rsc = true ->
  let r := register_framework_support (Some name) ac aric rac rsc st in
  r.1 = inr tt
  /\ _framework_support_map r.2 !! k = Some (entry_of ac aric rac rsc)
  /\ _logger r.2 =
       (_logger st ++
        if ENABLE_JSON_LOGGING_DEBUG
        then [warning ("Re-register framework " ++ k)] else [])%list.
Proof.
  intros Hwf Hk Hname Hv. cbv zeta.
  destruct (Hwf k Hk) as [Hne Hlow].
  assert (Hn : name <> "").
  { intros ->. rewrite lower_empty, Hlow in Hname. congruence. }
  rewrite (register_valid st name ac aric rac rsc Hn Hv). simpl.
  rewrite Hname, Hlow. split; [reflexivity|]. split.
  - apply lookup_insert_eq.
  - rewrite (bool_decide_eq_true_2 _ Hk). reflexivity.
Qed.

(** Every call keeps the registry's keys non-empty and in lower case. *)
Lemma register_keeps_keys_lower st name ac aric rac rsc :
  registry_keys_lower (_framework_support_map st) ->
  registry_keys_lower
    (_framework_support_map (register_framework_support name ac aric rac rsc st).2).
Proof.
  intros Hwf.
  destruct (register_outcome name ac aric rac rsc) as [Hbad|(n & -> & Hn & Hv)].
  - destruct (register_invalid st name ac aric rac rsc Hbad) as [e ->]. exact Hwf.
  - rewrite (register_valid st n ac aric rac rsc Hn Hv). simpl.
    intros k Hk. destruct (decide (lower n = k)) as [<-|Hne].
    + split; [now apply lower_nonempty | apply lower_idemp].
    + rewrite lookup_insert_ne in Hk by exact Hne. now apply Hwf.
Qed.

Lemma register_lower st n ac aric rac rsc :
  register_framework_support (Some (lower n)) ac aric rac rsc st =
  register_framework_support (Some n) ac aric rac rsc st.
Proof.
  destruct (register_outcome (Some n) ac aric rac rsc)
    as [[Hbad|[Hbad|Hbad]]|(n' & [= <-] & Hn & Hv)]; try discriminate.
  - injection Hbad as ->. now rewrite lower_empty.
  - destruct n as [|a n]; [now rewrite lower_empty|].
    destruct (lower (String a n)) as [|b m] eqn:Hl;
      [now apply lower_nonempty in Hl|].
    run_register. unfold valid_classes in Hbad.
    destruct (issubclass rac RequestAdapter); simpl; [|reflexivity].
    destruct (issubclass rsc ResponseAdapter); simpl; [|reflexivity].
    destruct (issubclass aric AppRequestInstrumentationConfigurator); simpl;
      [|reflexivity].
    destruct ac as [c|]; simpl in Hbad; [|discriminate].
    now rewrite Hbad.
  - rewrite (register_valid st n ac aric rac rsc Hn Hv).
    rewrite (register_valid st (lower n) ac aric rac rsc (lower_nonempty n Hn) Hv).
    now rewrite lower_idemp.
Qed.

(** C9: for a non-empty name and classes that pass the checks, registering
    under [N] and under [N.lower()] give the same result and the same state
    (registry and logger), and the call is not an error; hence two names with
    the same lower-cased form register the same entry under the same key.
    This rests on the three properties of [str.lower] stated at the head of
    the section. *)
Theorem register_name_case_insensitive st N ac aric rac rsc :
  N <> "" ->
  valid_classes ac aric rac rsc = true ->
  register_framework_support (Some N) ac aric rac rsc st =
    register_framework_support (Some (lower N)) ac aric rac rsc st
  /\ (register_framework_support (Some N) ac aric rac rsc st).1 = inr tt
  /\ (forall N', lower N' = lower N ->
        register_framework_support (Some N') ac aric rac rsc st =
        register_framework_support (Some N) ac aric rac rsc st).
Proof.
  intros Hn Hv. split; [|split].
  - symmetry. apply register_lower.
  - now rewrite (register_valid st N ac aric rac rsc Hn Hv).
  - intros N' HN'. rewrite <- (register_lower st N'), HN'. apply register_lower.
Qed.

(** C10: a call that returns normally leaves every key other than
    [name.lower()] as it was: the same entry if the key was present, absent
    if it was absent. *)
Theorem register_framework_support_frame st name ac aric rac rsc K :
  (register_framework_support (Some name) ac aric rac rsc st).1 = inr tt ->
  K <> lower name ->
  _framework_support_map
    (register_framework_support (Some name) ac aric rac rsc st).2 !! K =
  _framework_support_map st !! K.
Proof.
  intros Hok HK.
  destruct (register_outcome (Some name) ac aric rac rsc)
    as [Hbad|(n & [= <-] & Hn & Hv)].
  - destruct (register_invalid st (Some name) ac aric rac rsc Hbad) as [e He].
    rewrite He in Hok. discriminate.
  - rewrite (register_valid st name ac aric rac rsc Hn Hv). simpl.
    apply lookup_insert_ne. congruence.
Qed.

(** *** Sequences of calls *)

(** The arguments of one call. *)
Record call : Type := {
  call_name : option string;
  call_classes : framework_support
}.

Definition apply_call (c : call) : M unit :=
  register_framework_support (call_name c)
    (app_configurator (call_classes c))
    (app_request_instrumentation_configurator (call_classes c))
    (request_adapter_class (call_classes c))
    (response_adapter_class (call_classes c)).

(** The state after a sequence of calls, each one run to its end whether it
    returns or raises. *)
Definition after_calls (calls : list call) (st : state) : state :=
  foldl (fun st c => (apply_call c st).2) st calls.

Definition fresh : state := {| _framework_support_map := ∅; _logger := [] |}.

(** X1: whatever calls are made on a fresh registry, and whether they return
    or raise, every key of the registry is a non-empty lower-case string:
    [str.lower] leaves it as it is.  This rests on lower-casing twice being
    lower-casing once and on the lower-cased form of a non-empty name being
    non-empty. *)
Theorem registry_keys_always_lower (calls : list call) :
  registry_keys_lower (_framework_support_map (after_calls calls fresh)).
Proof.
  unfold after_calls.
  assert (Hgen : forall st,
    registry_keys_lower (_framework_support_map st) ->
    registry_keys_lower
      (_framework_support_map (foldl (fun st c => (apply_call c st).2) st calls))).
  { induction calls as [|c calls IH]; intros st Hst; simpl; [exact Hst|].
    apply IH. unfold apply_call. now apply register_keeps_keys_lower. }
  apply Hgen. intros k [x Hx]. simpl in Hx. now rewrite lookup_empty in Hx.
Qed.

(** X2: a call that returns normally adds exactly the key [name.lower()] to
    the keys of the registry. *)
Theorem register_adds_one_key st name ac aric rac rsc :
  (register_framework_support (Some name) ac aric rac rsc st).1 = inr tt ->
  dom (_framework_support_map
         (register_framework_support (Some name) ac aric rac rsc st).2) =
  {[ lower name ]} ∪ dom (_framework_support_map st).
Proof.
  intros Hok.
  destruct (register_outcome (Some name) ac aric rac rsc)
    as [Hbad|(n & [= <-] & Hn & Hv)].
  - destruct (register_invalid st (Some name) ac aric rac rsc Hbad) as [e He].
    rewrite He in Hok. discriminate.
  - rewrite (register_valid st name ac aric rac rsc Hn Hv). simpl.
    apply dom_insert_L.
Qed.

(** X3: of two successive registrations under names with the same
    lower-cased form, the registry keeps only the second: it is the registry
    the second call alone would have produced. *)
Theorem last_registration_wins st n1 n2 ac1 aric1 rac1 rsc1 ac2 aric2 rac2 rsc2 :
  n1 <> "" -> n2 <> "" -> lower n1 = lower n2 ->
  valid_classes ac1 aric1 rac1 rsc1 = true ->
  valid_classes ac2 aric2 rac2 rsc2 = true ->
  _framework_support_map
    (register_framework_support (Some n2) ac2 aric2 rac2 rsc2
       (register_framework_support (Some n1) ac1 aric1 rac1 rsc1 st).2).2 =
  _framework_support_map
    (register_framework_support (Some n2) ac2 aric2 rac2 rsc2 st).2.
Proof.
  intros H1 H2 Hl Hv1 Hv2.
  rewrite (register_valid st n1 ac1 aric1 rac1 rsc1 H1 Hv1).
  rewrite !(register_valid _ n2 ac2 aric2 rac2 rsc2 H2 Hv2). simpl.
  rewrite Hl. apply insert_insert_eq.
Qed.

(** *** What no call does *)

(** X4: no call removes a key of the registry, whether it returns or
    raises; the registry offers no way to unregister a framework. *)
Theorem register_never_removes st name ac aric rac rsc :
  dom (_framework_support_map st) ⊆
  dom (_framework_support_map
         (register_framework_support name ac aric rac rsc st).2).
Proof.
  destruct (register_outcome name ac aric rac rsc) as [Hbad|(n & -> & Hn & Hv)].
  - now destruct (register_invalid st name ac aric rac rsc Hbad) as [e ->].
  - rewrite (register_valid st n ac aric rac rsc Hn Hv). simpl.
    apply dom_insert_subseteq.
Qed.

(** X5: a call either leaves the logger as it was or hands it exactly one
    warning, and the warning is only for a call that returns normally, with
    the debug switch on, under a name whose lower-cased form was already a
    key; its text names the lower-cased form. *)
Theorem register_logs_only_on_reregistration st name ac aric rac rsc :
  let r := register_framework_support name ac aric rac rsc st in
  _logger r.2 = _logger st
  \/ (ENABLE_JSON_LOGGING_DEBUG = true
      /\ r.1 = inr tt
      /\ exists n, name = Some n
           /\ is_Some (_framework_support_map st !! lower n)
           /\ _logger r.2 =
                (_logger st ++
                 [warning ("Re-register framework " ++ lower n)])%list).
Proof.
  cbv zeta.
  destruct (register_outcome name ac aric rac rsc) as [Hbad|(n & -> & Hn & Hv)].
  - left. now destruct (register_invalid st name ac aric rac rsc Hbad) as [e ->].
  - rewrite (register_valid st n ac aric rac rsc Hn Hv). simpl.
    destruct (bool_decide (is_Some (_framework_support_map st !! lower n)))
      eqn:Hp; simpl.
    + destruct ENABLE_JSON_LOGGING_DEBUG; simpl.
      * right. repeat split. exists n. repeat split.
        now apply bool_decide_eq_true_1 in Hp.
      * left. apply app_nil_r.
    + left. apply app_nil_r.
Qed.

(** X6: two registrations that return normally under names with different
    lower-cased forms can be made in either order: the registry is the
    same. *)
Theorem registrations_commute st n1 n2 ac1 aric1 rac1 rsc1 ac2 aric2 rac2 rsc2 :
  n1 <> "" -> n2 <> "" -> lower n1 <> lower n2 ->
  valid_classes ac1 aric1 rac1 rsc1 = true ->
  valid_classes ac2 aric2 rac2 rsc2 = true ->
  _framework_support_map
    (register_framework_support (Some n2) ac2 aric2 rac2 rsc2
       (register_framework_support (Some n1) ac1 aric1 rac1 rsc1 st).2).2 =
  _framework_support_map
    (register_framework_support (Some n1) ac1 aric1 rac1 rsc1
       (register_framework_support (Some n2) ac2 aric2 rac2 rsc2 st).2).2.
Proof.
  intros H1 H2 Hne Hv1 Hv2.
  rewrite (register_valid st n1 ac1 aric1 rac1 rsc1 H1 Hv1).
  rewrite (register_valid st n2 ac2 aric2 rac2 rsc2 H2 Hv2).
  rewrite (register_valid _ n2 ac2 aric2 rac2 rsc2 H2 Hv2).
  rewrite (register_valid _ n1 ac1 aric1 rac1 rsc1 H1 Hv1). simpl.
  apply insert_insert_ne. congruence.
Qed.

(** *** Registrations in sequence *)

(** A call that will return normally: a non-empty name and classes that pass
    the four checks. *)
Definition call_ok (c : call) : bool :=
  match call_name c with
  | Some (String _ _) => true
  | _ => false
  end
  && valid_classes (app_configurator (call_classes c))
       (app_request_instrumentation_configurator (call_classes c))
       (request_adapter_class (call_classes c))
       (response_adapter_class (call_classes c)).

(** The key a call writes. *)
Definition key_of (c : call) : string :=
  match call_name c with
  | Some n => lower n
  | None => ""
  end.

(** Call statements one after the other, as at module level: the first one
    that raises ends the sequence. *)
Definition register_all (calls : list call) : M unit :=
  foldr (fun c rest => apply_call c;; rest) (mret tt) calls.

Definition store (m : gmap string framework_support) (c : call) :
    gmap string framework_support :=
  <[key_of c := call_classes c]> m.

Definition warning_for (key : string) : log_call :=
  warning ("Re-register framework " ++ key).

Lemma apply_call_ok (c : call) st :
  call_ok c = true ->
  apply_call c st =
    (inr tt,
     {| _framework_support_map := store (_framework_support_map st) c;
        _logger :=
          _logger st ++
          (if bool_decide (is_Some (_framework_support_map st !! key_of c))
              && ENABLE_JSON_LOGGING_DEBUG
           then [warning_for (key_of c)] else []) |}).
Proof.
  unfold call_ok, apply_call, store, key_of, warning_for.
  destruct c as [[[|a n]|] [ac aric rac rsc]];
    cbn [call_name call_classes app_configurator
         app_request_instrumentation_configurator request_adapter_class
         response_adapter_class andb];
    intros Hv; try discriminate Hv.
  rewrite (register_valid st (String a n) ac aric rac rsc);
    [reflexivity | congruence | exact Hv].
Qed.

Lemma apply_call_bad (c : call) st :
  call_ok c = false -> exists e, apply_call c st = (inl e, st).
Proof.
  unfold call_ok, apply_call. intros H. apply register_invalid.
  destruct (call_name c) as [[|a n]|]; auto.
Qed.

Lemma after_calls_cons (c : call) (calls : list call) st :
  after_calls (c :: calls) st = after_calls calls (apply_call c st).2.
Proof. reflexivity. Qed.

Lemma register_all_ok (calls : list call) st :
  forallb call_ok calls = true ->
  register_all calls st = (inr tt, after_calls calls st).
Proof.
  revert st. induction calls as [|c calls IH]; intros st H; [reflexivity|].
  simpl in H. apply andb_prop in H as [Hc Hcs].
  rewrite after_calls_cons. simpl. unfold mbind, M_bind at 1.
  rewrite (apply_call_ok c st Hc). simpl. now apply IH.
Qed.

Lemma register_all_abort (l1 l2 : list call) (c : call) st :
  forallb call_ok l1 = true -> call_ok c = false ->
  exists e, register_all (l1 ++ c :: l2) st = (inl e, after_calls l1 st).
Proof.
  revert st. induction l1 as [|c1 l1 IH]; intros st H Hc.
  - destruct (apply_call_bad c st Hc) as [e He]. exists e.
    simpl. unfold mbind, M_bind at 1. now rewrite He.
  - simpl in H. apply andb_prop in H as [Hc1 Hl1].
    rewrite after_calls_cons. simpl. unfold mbind, M_bind at 1.
    rewrite (apply_call_ok c1 st Hc1). simpl. now apply IH.
Qed.

Lemma after_calls_registry (calls : list call) st :
  forallb call_ok calls = true ->
  _framework_support_map (after_calls calls st) =
  foldl store (_framework_support_map st) calls.
Proof.
  revert st. induction calls as [|c calls IH]; intros st H; [reflexivity|].
  simpl in H. apply andb_prop in H as [Hc Hcs].
  rewrite after_calls_cons, (IH _ Hcs), (apply_call_ok c st Hc). reflexivity.
Qed.

(** The calls among [calls] whose key the registry [m] already holds. *)
Definition already_in (m : gmap string framework_support)
    (calls : list call) : list call :=
  List.filter (fun c => bool_decide (is_Some (m !! key_of c))) calls.

Lemma after_calls_logger (calls : list call) st :
  forallb call_ok calls = true ->
  NoDup (map key_of calls) ->
  _logger (after_calls calls st) =
  (_logger st ++
   if ENABLE_JSON_LOGGING_DEBUG
   then map (fun c => warning_for (key_of c))
          (already_in (_framework_support_map st) calls)
   else [])%list.
Proof.
  revert st. induction calls as [|c calls IH]; intros st H Hnd.
  - simpl. destruct ENABLE_JSON_LOGGING_DEBUG; now rewrite app_nil_r.
  - simpl in H. apply andb_prop in H as [Hc Hcs].
    simpl in Hnd. apply NoDup_cons in Hnd as [Hnotin Hnd].
    rewrite after_calls_cons, (IH _ Hcs Hnd), (apply_call_ok c st Hc). simpl.
    assert (Hsame :
      already_in (store (_framework_support_map st) c) calls =
      already_in (_framework_support_map st) calls).
    { unfold already_in. apply List.filter_ext_in. intros c' Hin.
      unfold store. rewrite lookup_insert_ne; [reflexivity|].
      intros Heq. apply Hnotin. rewrite Heq.
      apply list_elem_of_In, in_map, Hin. }
    rewrite Hsame, <- app_assoc. f_equal.
    destruct (bool_decide (is_Some (_framework_support_map st !! key_of c)));
      destruct ENABLE_JSON_LOGGING_DEBUG; reflexivity.
Qed.

(** *** The body of the module, lines 39-76

    The classes the plugin modules export and the answer of
    [fastapi_support.is_fastapi_present()] are parameters. *)

Variable FlaskAppRequestInstrumentationConfigurator : cls.
Variable FlaskRequestAdapter : cls.
Variable FlaskResponseAdapter : cls.
Variable SanicAppConfigurator : cls.
Variable SanicAppRequestInstrumentationConfigurator : cls.
Variable SanicRequestAdapter : cls.
Variable SanicResponseAdapter : cls.
Variable QuartAppRequestInstrumentationConfigurator : cls.
Variable QuartRequestAdapter : cls.
Variable QuartResponseAdapter : cls.
Variable ConnexionAppRequestInstrumentationConfigurator : cls.
Variable ConnexionRequestAdapter : cls.
Variable ConnexionResponseAdapter : cls.
Variable FastAPIAppRequestInstrumentationConfigurator : cls.
Variable FastAPIRequestAdapter : cls.
Variable FastAPIResponseAdapter : cls.
Variable is_fastapi_present : bool.

Definition frameworks_module : M unit :=
  register_framework_support (Some "flask") None
    FlaskAppRequestInstrumentationConfigurator
    FlaskRequestAdapter FlaskResponseAdapter;;
  register_framework_support (Some "sanic") (Some SanicAppConfigurator)
    SanicAppRequestInstrumentationConfigurator
    SanicRequestAdapter SanicResponseAdapter;;
  register_framework_support (Some "quart") None
    QuartAppRequestInstrumentationConfigurator
    QuartRequestAdapter QuartResponseAdapter;;
  register_framework_support (Some "connexion") None
    ConnexionAppRequestInstrumentationConfigurator
    ConnexionRequestAdapter ConnexionResponseAdapter;;
  when is_fastapi_present
    (register_framework_support (Some "fastapi") None
       FastAPIAppRequestInstrumentationConfigurator
       FastAPIRequestAdapter FastAPIResponseAdapter).

(** The entries the five registrations pass. *)
Definition flask_entry : framework_support :=
  entry_of None FlaskAppRequestInstrumentationConfigurator
    FlaskRequestAdapter FlaskResponseAdapter.
Definition sanic_entry : framework_support :=
  entry_of (Some SanicAppConfigurator)
    SanicAppRequestInstrumentationConfigurator
    SanicRequestAdapter SanicResponseAdapter.
Definition quart_entry : framework_support :=
  entry_of None QuartAppRequestInstrumentationConfigurator
    QuartRequestAdapter QuartResponseAdapter.
Definition connexion_entry : framework_support :=
  entry_of None ConnexionAppRequestInstrumentationConfigurator
    ConnexionRequestAdapter ConnexionResponseAdapter.
Definition fastapi_entry : framework_support :=
  entry_of None FastAPIAppRequestInstrumentationConfigurator
    FastAPIRequestAdapter FastAPIResponseAdapter.

(** The registrations the module makes, in order. *)
Definition import_calls : list call :=
  [ {| call_name := Some "flask"; call_classes := flask_entry |};
    {| call_name := Some "sanic"; call_classes := sanic_entry |};
    {| call_name := Some "quart"; call_classes := quart_entry |};
    {| call_name := Some "connexion"; call_classes := connexion_entry |} ]
  ++ (if is_fastapi_present
      then [ {| call_name := Some "fastapi"; call_classes := fastapi_entry |} ]
      else []).

(** The names the module registers, in order. *)
Definition import_names : list string :=
  ["flask"; "sanic"; "quart"; "connexion"]
  ++ (if is_fastapi_present then ["fastapi"] else []).

Lemma frameworks_module_calls st :
  frameworks_module st = register_all import_calls st.
Proof.
  unfold frameworks_module, import_calls, register_all, apply_call,
    flask_entry, sanic_entry, quart_entry, connexion_entry, fastapi_entry,
    entry_of.
  destruct is_fastapi_present;
    cbn [foldr app call_name call_classes app_configurator
         app_request_instrumentation_configurator request_adapter_class
         response_adapter_class when];
    repeat match goal with
    | |- context [register_framework_support ?n ?a ?b ?c ?d] =>
        generalize (register_framework_support n a b c d); intros ?
    end;
    unfold mbind, M_bind, mret, M_ret;
    repeat match goal with
    | m : M unit |- context [?m0 ?st0] =>
        match m0 with
        | m => destruct (m st0) as [[?|[]] ?]; clear m
        end
    end; reflexivity.
Qed.

(** [str.lower] leaves the five names of the module as they are: none of
    them has an upper-case letter. *)
Hypothesis lower_module_names :
  forall n, n ∈ ["flask"; "sanic"; "quart"; "connexion"; "fastapi"] ->
            lower n = n.

Lemma lower_literals :
  lower "flask" = "flask" /\ lower "sanic" = "sanic"
  /\ lower "quart" = "quart" /\ lower "connexion" = "connexion"
  /\ lower "fastapi" = "fastapi".
Proof.
  repeat split; apply lower_module_names;
    repeat first [apply list_elem_of_here | apply list_elem_of_further].
Qed.

Ltac lower_names :=
  destruct lower_literals as (Hflask & Hsanic & Hquart & Hconnexion & Hfastapi);
  rewrite ?Hflask, ?Hsanic, ?Hquart, ?Hconnexion, ?Hfastapi.

Lemma import_keys : map key_of import_calls = import_names.
Proof.
  unfold import_calls, import_names.
  destruct is_fastapi_present; simpl; unfold key_of; simpl; now lower_names.
Qed.

Lemma import_names_distinct : NoDup import_names.
Proof.
  unfold import_names. destruct is_fastapi_present; simpl;
    repeat (apply NoDup_cons; split;
            [intros H; repeat (apply elem_of_cons in H as [H|H];
                               [discriminate|]);
             now apply elem_of_nil in H|]);
    apply NoDup_nil_2.
Qed.

(** The plugin classes pass the checks of their registrations; the FastAPI
    ones need to only when the module registers them. *)
Definition plugins_valid : bool :=
  forallb call_ok import_calls.

Lemma call_ok_literal (n : string) (e : framework_support) :
  n <> "" ->
  call_ok {| call_name := Some n; call_classes := e |} =
  valid_classes (app_configurator e)
    (app_request_instrumentation_configurator e) (request_adapter_class e)
    (response_adapter_class e).
Proof. unfold call_ok. destruct n; [congruence | reflexivity]. Qed.

Lemma plugins_valid_spec :
  plugins_valid = true <->
  valid_classes None FlaskAppRequestInstrumentationConfigurator
    FlaskRequestAdapter FlaskResponseAdapter = true
  /\ valid_classes (Some SanicAppConfigurator)
       SanicAppRequestInstrumentationConfigurator
       SanicRequestAdapter SanicResponseAdapter = true
  /\ valid_classes None QuartAppRequestInstrumentationConfigurator
       QuartRequestAdapter QuartResponseAdapter = true
  /\ valid_classes None ConnexionAppRequestInstrumentationConfigurator
       ConnexionRequestAdapter ConnexionResponseAdapter = true
  /\ (is_fastapi_present = true ->
      valid_classes None FastAPIAppRequestInstrumentationConfigurator
        FastAPIRequestAdapter FastAPIResponseAdapter = true).
Proof.
  unfold plugins_valid, import_calls. rewrite forallb_app. simpl.
  rewrite !call_ok_literal by discriminate. simpl.
  rewrite !andb_true_iff. destruct is_fastapi_present; simpl.
  - rewrite call_ok_literal by discriminate. simpl.
    rewrite !andb_true_iff. tauto.
  - intuition discriminate.
Qed.

Lemma already_in_keys (m : gmap string framework_support) (calls : list call) :
  map (fun c => warning_for (key_of c)) (already_in m calls) =
  map warning_for
    (List.filter (fun n => bool_decide (is_Some (m !! n))) (map key_of calls)).
Proof.
  unfold already_in. induction calls as [|c calls IH]; simpl; [reflexivity|].
  destruct (bool_decide (is_Some (m !! key_of c))); simpl; now rewrite IH.
Qed.

(** X7: when the plugin classes pass the checks, importing the module
    returns normally from any state, and the registry is the one before the
    import with the four frameworks stored under ["flask"], ["sanic"],
    ["quart"] and ["connexion"], and with ["fastapi"] stored exactly when
    [is_fastapi_present()] holds; every other key keeps its entry.  The
    keys are the names themselves because [str.lower] leaves the five names
    as they are. *)
Theorem import_registers_plugins st :
  plugins_valid = true ->
  (frameworks_module st).1 = inr tt
  /\ _framework_support_map (frameworks_module st).2 =
     (let m := <["connexion" := connexion_entry]>
                 (<["quart" := quart_entry]>
                    (<["sanic" := sanic_entry]>
                       (<["flask" := flask_entry]>
                          (_framework_support_map st)))) in
      if is_fastapi_present then <["fastapi" := fastapi_entry]> m else m).
Proof.
  intros Hv. rewrite frameworks_module_calls.
  rewrite (register_all_ok import_calls st Hv). split; [reflexivity|].
  cbn [snd]. rewrite (after_calls_registry import_calls st Hv).
  unfold import_calls.
  destruct is_fastapi_present; simpl; unfold store, key_of; simpl;
    now lower_names.
Qed.

(** X8: when one of the module's registrations is the first whose name or
    classes fail the checks, the import raises there: the registrations
    before it stay in the registry, and neither it nor any later one is
    stored. *)
Theorem import_stops_at_first_invalid st (l1 l2 : list call) (c : call) :
  import_calls = (l1 ++ c :: l2)%list ->
  forallb call_ok l1 = true ->
  call_ok c = false ->
  raised (frameworks_module st)
  /\ _framework_support_map (frameworks_module st).2 =
     foldl store (_framework_support_map st) l1.
Proof.
  intros Hsplit Hl1 Hc. rewrite frameworks_module_calls, Hsplit.
  destruct (register_all_abort l1 l2 c st Hl1 Hc) as [e ->].
  split; [now exists e|]. cbn [snd]. now apply after_calls_registry.
Qed.

(** X9: when the plugin classes pass the checks, the import hands the
    logger one warning for each of the module's names that was already a key
    before the import, in the order of the registrations, if the debug
    switch is on, and nothing if it is off.  This uses that [str.lower]
    leaves the five names as they are. *)
Theorem import_warns_for_names_already_registered st :
  plugins_valid = true ->
  _logger (frameworks_module st).2 =
  (_logger st ++
   if ENABLE_JSON_LOGGING_DEBUG
   then map warning_for
          (List.filter
             (fun n => bool_decide (is_Some (_framework_support_map st !! n)))
             import_names)
   else [])%list.
Proof.
  intros Hv. rewrite frameworks_module_calls.
  rewrite (register_all_ok import_calls st Hv). cbn [snd].
  rewrite (after_calls_logger import_calls st Hv).
  - now rewrite already_in_keys, import_keys.
  - rewrite import_keys. apply import_names_distinct.
Qed.

End register.

(** *** The registrations at import time (lines 39-76)

    The plugin modules [json_logging.framework.flask], [.sanic], [.quart],
    [.connexion] and [.fastapi] supply the classes that lines 39-76 pass.
    They are named here as the source names them, and each one is given the
    base class its position in the call asks for. *)

Inductive py_class : Type :=
| object
| RequestAdapter | ResponseAdapter
| AppRequestInstrumentationConfigurator | FrameworkConfigurator
| FlaskAppRequestInstrumentationConfigurator
| FlaskRequestAdapter | FlaskResponseAdapter
| SanicAppConfigurator | SanicAppRequestInstrumentationConfigurator
| SanicRequestAdapter | SanicResponseAdapter
| QuartAppRequestInstrumentationConfigurator
| QuartRequestAdapter | QuartResponseAdapter
| ConnexionAppRequestInstrumentationConfigurator
| ConnexionRequestAdapter | ConnexionResponseAdapter
| FastAPIAppRequestInstrumentationConfigurator
| FastAPIRequestAdapter | FastAPIResponseAdapter.

#[export] Instance py_class_eq_dec : EqDecision py_class.
Proof. solve_decision. Defined.

Definition base (c : py_class) : option py_class :=
  match c with
  | object => None
  | RequestAdapter | ResponseAdapter
  | AppRequestInstrumentationConfigurator | FrameworkConfigurator => Some object
  | FlaskRequestAdapter | SanicRequestAdapter | QuartRequestAdapter
  | ConnexionRequestAdapter | FastAPIRequestAdapter => Some RequestAdapter
  | FlaskResponseAdapter | SanicResponseAdapter | QuartResponseAdapter
  | ConnexionResponseAdapter | FastAPIResponseAdapter => Some ResponseAdapter
  | FlaskAppRequestInstrumentationConfigurator
  | SanicAppRequestInstrumentationConfigurator
  | QuartAppRequestInstrumentationConfigurator
  | ConnexionAppRequestInstrumentationConfigurator
  | FastAPIAppRequestInstrumentationConfigurator =>
      Some AppRequestInstrumentationConfigurator
  | SanicAppConfigurator => Some FrameworkConfigurator
  end.

(** The class and its ancestors, nearest first; the chains above have at
    most three links. *)
Fixpoint ancestors (fuel : nat) (c : py_class) : list py_class :=
  match fuel with
  | O => []
  | S fuel' =>
      c :: match base c with
           | Some b => ancestors fuel' b
           | None => []
           end
  end.

Definition issubclass (c d : py_class) : bool :=
  bool_decide (d ∈ ancestors 3 c).

Definition register (debug : bool) :
    option string -> option py_class -> py_class -> py_class -> py_class ->
    M unit :=
  register_framework_support ascii_lower issubclass RequestAdapter ResponseAdapter
    AppRequestInstrumentationConfigurator FrameworkConfigurator debug.

(** The module body below the function: four unconditional registrations
    and the FastAPI one under [fastapi_support.is_fastapi_present()]. *)
Definition module_body (debug is_fastapi_present : bool) : M unit :=
  register debug (Some "flask") None
    FlaskAppRequestInstrumentationConfigurator
    FlaskRequestAdapter FlaskResponseAdapter;;
  register debug (Some "sanic") (Some SanicAppConfigurator)
    SanicAppRequestInstrumentationConfigurator
    SanicRequestAdapter SanicResponseAdapter;;
  register debug (Some "quart") None
    QuartAppRequestInstrumentationConfigurator
    QuartRequestAdapter QuartResponseAdapter;;
  register debug (Some "connexion") None
    ConnexionAppRequestInstrumentationConfigurator
    ConnexionRequestAdapter ConnexionResponseAdapter;;
  when is_fastapi_present
    (register debug (Some "fastapi") None
       FastAPIAppRequestInstrumentationConfigurator
       FastAPIRequestAdapter FastAPIResponseAdapter).

Definition empty_state : state (cls := py_class) := fresh.

(** The state once the module has been imported into a fresh package. *)
Definition imported (debug is_fastapi_present : bool) : state :=
  (module_body debug is_fastapi_present empty_state).2.

Example import_registers_five :
  (module_body true true empty_state).1 = inr tt /\
  dom (_framework_support_map (imported true true)) =
    {[ "flask"; "sanic"; "quart"; "connexion"; "fastapi" ]} /\
  _logger (imported true true) = [].
Proof. repeat split; vm_compute; reflexivity. Qed.

(** Computations that keep the registry's keys non-empty and lower-case. *)
Definition keeps_keys_lower {A} (m : M (cls := py_class) A) : Prop :=
  forall st,
    registry_keys_lower ascii_lower (_framework_support_map st) ->
    registry_keys_lower ascii_lower (_framework_support_map (m st).2).

Lemma keeps_bind {A B} (m : M A) (k : A -> M B) :
  keeps_keys_lower m -> (forall a, keeps_keys_lower (k a)) ->
  keeps_keys_lower (m ≫= k).
Proof.
  intros Hm Hk st Hst. unfold mbind, M_bind.
  specialize (Hm st Hst). destruct (m st) as [[e|a] st']; simpl in *.
  - exact Hm.
  - now apply Hk.
Qed.

Lemma keeps_register debug name ac aric rac rsc :
  keeps_keys_lower (register debug name ac aric rac rsc).
Proof.
  intros st.
  apply (register_keeps_keys_lower ascii_lower ascii_lower_idemp
           ascii_lower_nonempty).
Qed.

Lemma keeps_when b (m : M unit) :
  keeps_keys_lower m -> keeps_keys_lower (when b m).
Proof. intros Hm. destruct b; simpl; [exact Hm | intros st Hst; exact Hst]. Qed.

Lemma keeps_module_body debug fastapi :
  keeps_keys_lower (module_body debug fastapi).
Proof.
  unfold module_body.
  repeat (apply keeps_bind; [apply keeps_register | intros _]).
  apply keeps_when, keeps_register.
Qed.

Lemma imported_keys_lower debug fastapi :
  registry_keys_lower ascii_lower (_framework_support_map (imported debug fastapi)).
Proof.
  apply keeps_module_body.
  intros k [x Hx]. simpl in Hx. now rewrite lookup_empty in Hx.
Qed.

(** C4, as stated, fails when the debug switch is off: after the import
    ["flask"] is a key of the registry, the call with ["Flask"] returns
    normally and replaces the entry, and the logger has received nothing. *)
Lemma reregister_without_debug_logs_nothing :
  let st := imported false true in
  let r := register false (Some "Flask") None
             QuartAppRequestInstrumentationConfigurator
             QuartRequestAdapter QuartResponseAdapter st in
  is_Some (_framework_support_map st !! "flask")
  /\ r.1 = inr tt
  /\ _framework_support_map r.2 !! "flask" =
       Some (entry_of None QuartAppRequestInstrumentationConfigurator
               QuartRequestAdapter QuartResponseAdapter)
  /\ _logger st = []
  /\ _logger r.2 = [].
Proof.
  cbv zeta. split; [vm_compute; eauto|].
  repeat split; vm_compute; reflexivity.
Qed.

Lemma reregister_overwrites_and_warns_when_debug_witness :
  let st := imported true true in
  let r := register true (Some "Flask") None
             QuartAppRequestInstrumentationConfigurator
             QuartRequestAdapter QuartResponseAdapter st in
  r.1 = inr tt
  /\ _framework_support_map r.2 !! "flask" =
       Some (entry_of None QuartAppRequestInstrumentationConfigurator
               QuartRequestAdapter QuartResponseAdapter)
  /\ _logger r.2 =
       (_logger st ++ [warning "Re-register framework flask"])%list.
Proof.
  apply (reregister_overwrites_and_warns_when_debug ascii_lower ascii_lower_empty issubclass RequestAdapter
           ResponseAdapter AppRequestInstrumentationConfigurator
           FrameworkConfigurator true (imported true true) "flask" "Flask").
  - apply imported_keys_lower.
  - vm_compute. eauto.
  - reflexivity.
  - reflexivity.
Defined.

Lemma register_name_case_insensitive_witness :
  register true (Some "FastAPI") None
    FastAPIAppRequestInstrumentationConfigurator
    FastAPIRequestAdapter FastAPIResponseAdapter (imported true false) =
  register true (Some (ascii_lower "FastAPI")) None
    FastAPIAppRequestInstrumentationConfigurator
    FastAPIRequestAdapter FastAPIResponseAdapter (imported true false)
  /\ (register true (Some "FastAPI") None
        FastAPIAppRequestInstrumentationConfigurator
        FastAPIRequestAdapter FastAPIResponseAdapter (imported true false)).1
     = inr tt
  /\ (forall N', ascii_lower N' = ascii_lower "FastAPI" ->
        register true (Some N') None
          FastAPIAppRequestInstrumentationConfigurator
          FastAPIRequestAdapter FastAPIResponseAdapter (imported true false) =
        register true (Some "FastAPI") None
          FastAPIAppRequestInstrumentationConfigurator
          FastAPIRequestAdapter FastAPIResponseAdapter (imported true false)).
Proof.
  apply (register_name_case_insensitive ascii_lower ascii_lower_idemp
           ascii_lower_nonempty ascii_lower_empty issubclass RequestAdapter
           ResponseAdapter AppRequestInstrumentationConfigurator
           FrameworkConfigurator true (imported true false) "FastAPI").
  - discriminate.
  - reflexivity.
Defined.

Lemma register_framework_support_frame_witness :
  _framework_support_map
    (register false (Some "Sanic") (Some SanicAppConfigurator)
       SanicAppRequestInstrumentationConfigurator
       SanicRequestAdapter SanicResponseAdapter (imported false false)).2
    !! "flask" =
  _framework_support_map (imported false false) !! "flask".
Proof.
  apply (register_framework_support_frame ascii_lower issubclass RequestAdapter
           ResponseAdapter AppRequestInstrumentationConfigurator
           FrameworkConfigurator false (imported false false) "Sanic").
  - vm_compute. reflexivity.
  - vm_compute. discriminate.
Defined.

Lemma register_adds_one_key_witness :
  dom (_framework_support_map
         (register false (Some "Sanic") (Some SanicAppConfigurator)
            SanicAppRequestInstrumentationConfigurator
            SanicRequestAdapter SanicResponseAdapter empty_state).2) =
  {[ ascii_lower "Sanic" ]} ∪ dom (_framework_support_map empty_state).
Proof.
  apply (register_adds_one_key ascii_lower issubclass RequestAdapter ResponseAdapter
           AppRequestInstrumentationConfigurator FrameworkConfigurator false
           empty_state "Sanic").
  vm_compute. reflexivity.
Defined.

Lemma last_registration_wins_witness :
  _framework_support_map
    (register true (Some "QUART") None
       QuartAppRequestInstrumentationConfigurator
       QuartRequestAdapter QuartResponseAdapter
       (register true (Some "quart") None
          FlaskAppRequestInstrumentationConfigurator
          FlaskRequestAdapter FlaskResponseAdapter empty_state).2).2 =
  _framework_support_map
    (register true (Some "QUART") None
       QuartAppRequestInstrumentationConfigurator
       QuartRequestAdapter QuartResponseAdapter empty_state).2.
Proof.
  apply (last_registration_wins ascii_lower issubclass RequestAdapter ResponseAdapter
           AppRequestInstrumentationConfigurator FrameworkConfigurator true
           empty_state "quart" "QUART").
  - discriminate.
  - discriminate.
  - reflexivity.
  - reflexivity.
  - reflexivity.
Defined.

Lemma registry_keys_always_lower_witness :
  registry_keys_lower ascii_lower
    (_framework_support_map
       (after_calls ascii_lower issubclass RequestAdapter ResponseAdapter
          AppRequestInstrumentationConfigurator FrameworkConfigurator true
          [ {| call_name := Some "Flask";
               call_classes :=
                 entry_of None FlaskAppRequestInstrumentationConfigurator
                   FlaskRequestAdapter FlaskResponseAdapter |};
            {| call_name := None;
               call_classes :=
                 entry_of None QuartAppRequestInstrumentationConfigurator
                   QuartRequestAdapter QuartResponseAdapter |};
            {| call_name := Some "SANIC";
               call_classes :=
                 entry_of (Some SanicAppConfigurator)
                   SanicAppRequestInstrumentationConfigurator
                   SanicRequestAdapter SanicResponseAdapter |} ]
          fresh)).
Proof.
  apply (registry_keys_always_lower ascii_lower ascii_lower_idemp
           ascii_lower_nonempty).
Defined.

Lemma ascii_lower_module_names (n : string) :
  n ∈ ["flask"; "sanic"; "quart"; "connexion"; "fastapi"] ->
  ascii_lower n = n.
Proof.
  intros H. repeat (apply elem_of_cons in H as [->|H]; [reflexivity|]).
  now apply elem_of_nil in H.
Qed.

(** The module body over the classes named above is the general one. *)
Lemma module_body_general debug present :
  module_body debug present =
  frameworks_module ascii_lower issubclass RequestAdapter ResponseAdapter
    AppRequestInstrumentationConfigurator FrameworkConfigurator debug
    FlaskAppRequestInstrumentationConfigurator FlaskRequestAdapter
    FlaskResponseAdapter SanicAppConfigurator
    SanicAppRequestInstrumentationConfigurator SanicRequestAdapter
    SanicResponseAdapter QuartAppRequestInstrumentationConfigurator
    QuartRequestAdapter QuartResponseAdapter
    ConnexionAppRequestInstrumentationConfigurator ConnexionRequestAdapter
    ConnexionResponseAdapter FastAPIAppRequestInstrumentationConfigurator
    FastAPIRequestAdapter FastAPIResponseAdapter present.
Proof. reflexivity. Qed.

Lemma registrations_commute_witness :
  _framework_support_map
    (register true (Some "Quart") None
       QuartAppRequestInstrumentationConfigurator
       QuartRequestAdapter QuartResponseAdapter
       (register true (Some "FLASK") None
          FlaskAppRequestInstrumentationConfigurator
          FlaskRequestAdapter FlaskResponseAdapter empty_state).2).2 =
  _framework_support_map
    (register true (Some "FLASK") None
       FlaskAppRequestInstrumentationConfigurator
       FlaskRequestAdapter FlaskResponseAdapter
       (register true (Some "Quart") None
          QuartAppRequestInstrumentationConfigurator
          QuartRequestAdapter QuartResponseAdapter empty_state).2).2.
Proof.
  apply (registrations_commute ascii_lower issubclass RequestAdapter ResponseAdapter
           AppRequestInstrumentationConfigurator FrameworkConfigurator true
           empty_state "FLASK" "Quart").
  - discriminate.
  - discriminate.
  - vm_compute. discriminate.
  - reflexivity.
  - reflexivity.
Defined.

Lemma import_registers_plugins_witness :
  (module_body false true empty_state).1 = inr tt
  /\ _framework_support_map (module_body false true empty_state).2 =
     <["fastapi" := entry_of None FastAPIAppRequestInstrumentationConfigurator
                      FastAPIRequestAdapter FastAPIResponseAdapter]>
       (<["connexion" := entry_of None
                           ConnexionAppRequestInstrumentationConfigurator
                           ConnexionRequestAdapter ConnexionResponseAdapter]>
          (<["quart" := entry_of None
                          QuartAppRequestInstrumentationConfigurator
                          QuartRequestAdapter QuartResponseAdapter]>
             (<["sanic" := entry_of (Some SanicAppConfigurator)
                             SanicAppRequestInstrumentationConfigurator
                             SanicRequestAdapter SanicResponseAdapter]>
                (<["flask" := entry_of None
                                FlaskAppRequestInstrumentationConfigurator
                                FlaskRequestAdapter FlaskResponseAdapter]>
                   ∅)))).
Proof.
  apply (import_registers_plugins ascii_lower issubclass RequestAdapter ResponseAdapter
           AppRequestInstrumentationConfigurator FrameworkConfigurator false
           FlaskAppRequestInstrumentationConfigurator FlaskRequestAdapter
           FlaskResponseAdapter SanicAppConfigurator
           SanicAppRequestInstrumentationConfigurator SanicRequestAdapter
           SanicResponseAdapter QuartAppRequestInstrumentationConfigurator
           QuartRequestAdapter QuartResponseAdapter
           ConnexionAppRequestInstrumentationConfigurator
           ConnexionRequestAdapter ConnexionResponseAdapter
           FastAPIAppRequestInstrumentationConfigurator FastAPIRequestAdapter
           FastAPIResponseAdapter true ascii_lower_module_names empty_state).
  vm_compute. reflexivity.
Defined.

(** A Sanic request adapter that does not derive from [RequestAdapter]
    (here [object]) stops the import at the second registration. *)
Lemma import_stops_at_first_invalid_witness :
  let broken :=
    frameworks_module ascii_lower issubclass RequestAdapter ResponseAdapter
      AppRequestInstrumentationConfigurator FrameworkConfigurator true
      FlaskAppRequestInstrumentationConfigurator FlaskRequestAdapter
      FlaskResponseAdapter SanicAppConfigurator
      SanicAppRequestInstrumentationConfigurator object
      SanicResponseAdapter QuartAppRequestInstrumentationConfigurator
      QuartRequestAdapter QuartResponseAdapter
      ConnexionAppRequestInstrumentationConfigurator ConnexionRequestAdapter
      ConnexionResponseAdapter FastAPIAppRequestInstrumentationConfigurator
      FastAPIRequestAdapter FastAPIResponseAdapter true in
  raised (broken empty_state)
  /\ _framework_support_map (broken empty_state).2 =
     foldl (store ascii_lower) ∅
       [ {| call_name := Some "flask";
            call_classes :=
              entry_of None FlaskAppRequestInstrumentationConfigurator
                FlaskRequestAdapter FlaskResponseAdapter |} ].
Proof.
  cbv zeta.
  apply (import_stops_at_first_invalid ascii_lower issubclass RequestAdapter
           ResponseAdapter AppRequestInstrumentationConfigurator
           FrameworkConfigurator true
           FlaskAppRequestInstrumentationConfigurator FlaskRequestAdapter
           FlaskResponseAdapter SanicAppConfigurator
           SanicAppRequestInstrumentationConfigurator object
           SanicResponseAdapter QuartAppRequestInstrumentationConfigurator
           QuartRequestAdapter QuartResponseAdapter
           ConnexionAppRequestInstrumentationConfigurator
           ConnexionRequestAdapter ConnexionResponseAdapter
           FastAPIAppRequestInstrumentationConfigurator FastAPIRequestAdapter
           FastAPIResponseAdapter true empty_state
           [ {| call_name := Some "flask";
                call_classes :=
                  entry_of None FlaskAppRequestInstrumentationConfigurator
                    FlaskRequestAdapter FlaskResponseAdapter |} ]
           [ {| call_name := Some "quart";
                call_classes :=
                  entry_of None QuartAppRequestInstrumentationConfigurator
                    QuartRequestAdapter QuartResponseAdapter |};
             {| call_name := Some "connexion";
                call_classes :=
                  entry_of None ConnexionAppRequestInstrumentationConfigurator
                    ConnexionRequestAdapter ConnexionResponseAdapter |};
             {| call_name := Some "fastapi";
                call_classes :=
                  entry_of None FastAPIAppRequestInstrumentationConfigurator
                    FastAPIRequestAdapter FastAPIResponseAdapter |} ]
           {| call_name := Some "sanic";
              call_classes :=
                entry_of (Some SanicAppConfigurator)
                  SanicAppRequestInstrumentationConfigurator object
                  SanicResponseAdapter |}).
  - reflexivity.
  - vm_compute. reflexivity.
  - vm_compute. reflexivity.
Defined.

Lemma import_warns_for_names_already_registered_witness :
  _logger (module_body true true (imported true false)).2 =
  (_logger (imported true false) ++
   [ warning_for "flask"; warning_for "sanic"; warning_for "quart";
     warning_for "connexion" ])%list.
Proof.
  assert (Hfilter :
    List.filter
      (fun n => bool_decide
                  (is_Some (_framework_support_map (imported true false) !! n)))
      (import_names true) =
    ["flask"; "sanic"; "quart"; "connexion"]) by (vm_compute; reflexivity).
  pose proof (import_warns_for_names_already_registered ascii_lower issubclass
                RequestAdapter ResponseAdapter
                AppRequestInstrumentationConfigurator FrameworkConfigurator
                true
                FlaskAppRequestInstrumentationConfigurator FlaskRequestAdapter
                FlaskResponseAdapter SanicAppConfigurator
                SanicAppRequestInstrumentationConfigurator SanicRequestAdapter
                SanicResponseAdapter QuartAppRequestInstrumentationConfigurator
                QuartRequestAdapter QuartResponseAdapter
                ConnexionAppRequestInstrumentationConfigurator
                ConnexionRequestAdapter ConnexionResponseAdapter
                FastAPIAppRequestInstrumentationConfigurator
                FastAPIRequestAdapter FastAPIResponseAdapter true
                ascii_lower_module_names
                (imported true false) ltac:(vm_compute; reflexivity)) as H.
  cbv iota in H. rewrite Hfilter in H. exact H.
Defined.

End frameworks.

(** ** The request-scoped logging core

    The correlation context, the request instrumentation hooks and the JSON
    formatter are in modules of the package outside [frameworks.py]; the
    tests in [tests/test_fastapi.py] exercise them through a FastAPI
    application.  They are modelled here from the specification. *)

Module core.

(** Values of the JSON output and of the [extra] mapping of a log call. *)
#[warnings="-register-all"]
Inductive json : Type :=
| JNull
| JBool (b : bool)
| JNum (n : Z)
| JStr (s : string)
| JArr (l : list json)
| JObj (o : gmap string json).

(** Modelled from the spec: the Framework Adapter capability set of section
    4.2 (the per-framework adapter classes are not under src/): read a named
    header of the inbound request, obtain its method, path and remote
    address. *)
Class RequestAdapter (Req : Type) : Type := {
  get_http_header : Req -> string -> option string;
  get_method : Req -> string;
  get_path : Req -> string;
  get_remote_address : Req -> string
}.

(** Modelled from the spec: the response side of the capability set of
    section 4.2: write a named header to the outbound response, read its
    status code. *)
Class ResponseAdapter (Resp : Type) : Type := {
  set_http_header : Resp -> string -> string -> Resp;
  get_status_code : Resp -> Z
}.

(** Modelled from the spec: the Correlation Context of sections 3 and 4.1
    (its code is not under src/): it holds the correlation id of the request
    in flight, and nothing outside a request. *)
Definition CorrelationContext : Type := option string.

(** Modelled from the spec: [get_correlation_id() -> string|empty] of
    section 4.1; outside a request it returns the empty value. *)
Definition get_correlation_id (ctx : CorrelationContext) : string :=
  default "" ctx.

(** Modelled from the spec: [set_correlation_id(id)] of section 4.1. *)
Definition set_correlation_id (id : string) (ctx : CorrelationContext) :
    CorrelationContext :=
  Some id.

(** Modelled from the spec: [clear()] of section 4.1. *)
Definition clear (ctx : CorrelationContext) : CorrelationContext := None.

(** Modelled from the spec: the two values of the [type] field of section
    4.5. *)
Inductive LogType : Type := Log | Request.

Definition type_name (ty : LogType) : string :=
  match ty with
  | Log => "log"
  | Request => "request"
  end.

(** Modelled from the spec: the configuration surface of section 6 that the
    hooks read: the name of the correlation-id header and the excluded URL
    patterns; [request_logger] names the logger of the completion line. *)
Record Config : Type := {
  correlation_id_header : string;
  exclude_url_patterns : list string;
  request_logger : string
}.

Section model.

(** Wall-clock instants and their ISO-8601 rendering, exception traces and
    their formatted text, and the regular-expression search of a pattern in
    a path come from the Python runtime. *)
Variable instant : Type.
Variable iso_time_format : instant -> string.
Variable exc_trace : Type.
Variable format_exception : exc_trace -> string.
Variable re_search : string -> string -> bool.

(** Modelled from the spec: the LogRecord view of section 3 (level, logger
    name, message, timestamp, optional exception trace, optional mapping of
    extra pairs), with the module and the file name of the log call that
    section 4.5 puts in the output.  The optional list of tags travels as
    the extra key ["tags"], as the log calls of [tests/test_fastapi.py]
    pass it. *)
Record LogRecord : Type := {
  level : string;
  logger : string;
  module : string;
  filename : string;
  msg : string;
  written : instant;
  exception : option exc_trace;
  extra : gmap string json
}.

(** Modelled from the spec: section 4.5, "if the record carries extra
    properties under a reserved key, merge them at the top level; otherwise
    merge any other extra keys directly".  The reserved key is ["props"];
    its pairs go to the top level next to the other extra keys and win over
    them (as [test_extra_property] expects), and the reserved key itself is
    not an output key. *)
Definition extra_fields (r : LogRecord) : gmap string json :=
  let direct := delete "props" (extra r) in
  match extra r !! "props" with
  | Some (JObj props) => props ∪ direct
  | _ => direct
  end.

(** Modelled from the spec: the seven fields every output object has
    (section 4.5). *)
Definition mandatory_fields (ty : LogType) (ctx : CorrelationContext)
    (r : LogRecord) : gmap string json :=
  {[ "written_at" := JStr (iso_time_format (written r));
     "level" := JStr (level r);
     "logger" := JStr (logger r);
     "module" := JStr (module r);
     "msg" := JStr (msg r);
     "type" := JStr (type_name ty);
     "correlation_id" := JStr (get_correlation_id ctx) ]}.

(** Modelled from the spec: section 4.5, "if an exception is attached, add
    [exc_info] (full formatted trace text) and [filename]". *)
Definition exc_fields (r : LogRecord) : gmap string json :=
  match exception r with
  | Some e => {[ "exc_info" := JStr (format_exception e);
                 "filename" := JStr (filename r) ]}
  | None => ∅
  end.

(** Modelled from the spec: the JSON Log Formatter of section 4.5.  The
    fields the section defines keep their meaning (section 6: field names
    and types must not change silently), so on a clash of keys they win over
    merged extra pairs. *)
Definition format (ty : LogType) (ctx : CorrelationContext) (r : LogRecord) :
    gmap string json :=
  exc_fields r ∪ (mandatory_fields ty ctx r ∪ extra_fields r).

(** *** Request instrumentation *)

Context {Req Resp : Type} `{!RequestAdapter Req} `{!ResponseAdapter Resp}.

(** Modelled from the spec: what sections 3 and 5 keep per execution unit,
    the correlation context and the configured log sink (the JSON objects
    written so far, oldest first). *)
Record World : Type := {
  context : CorrelationContext;
  sink : list (gmap string json)
}.

(** Modelled from the spec: what the start hook of section 4.4 leaves for
    the end hook of the same request, the start time and the mark that skips
    the completion log. *)
Record Marks : Type := {
  start_time : Z;
  skip : bool
}.

(** Modelled from the spec: a request handler of the host framework, seen
    from the logging core: given what [get_correlation_id()] returns while
    it runs, the records it logs, in order, and the response it returns or
    the exception it raises. *)
Definition Handler : Type := string -> list LogRecord * (exc_trace + Resp).

(** Modelled from the spec: section 4.1, "read a configured inbound header;
    if absent or empty, generate a version-4 UUID".  [generated] is the
    identifier the generator returns for this request. *)
Definition resolve_correlation_id (cfg : Config) (generated : string)
    (req : Req) : string :=
  match get_http_header req (correlation_id_header cfg) with
  | Some v => if decide (v = "") then generated else v
  | None => generated
  end.

(** Modelled from the spec: section 4.4, "check the request path against the
    exclusion pattern list". *)
Definition is_excluded (cfg : Config) (req : Req) : bool :=
  existsb (fun pattern => re_search pattern (get_path req))
    (exclude_url_patterns cfg).

(** Modelled from the spec: the on-request-start hook of section 4.4. *)
Definition on_request_start (cfg : Config) (generated : string) (t0 : Z)
    (req : Req) (w : World) : World * Marks :=
  let cid := resolve_correlation_id cfg generated req in
  ({| context := set_correlation_id cid (context w); sink := sink w |},
   {| start_time := t0; skip := is_excluded cfg req |}).

(** Modelled from the spec: one log call, the record formatted under the
    active context (section 4.5) and written to the sink. *)
Definition emit (ty : LogType) (r : LogRecord) (w : World) : World :=
  {| context := context w;
     sink := sink w ++ [format ty (context w) r] |}.

(** Modelled from the spec: the entry of the completion line (section 4.4):
    method, path, status code, duration (end time minus start time) and
    remote address; the correlation id comes from the formatter. *)
Definition completion_record (cfg : Config) (marks : Marks) (t1 : Z)
    (now : instant) (req : Req) (out : exc_trace + Resp) : LogRecord :=
  {| level := "INFO";
     logger := request_logger cfg;
     module := "";
     filename := "";
     msg := "";
     written := now;
     exception := None;
     extra :=
       {[ "method" := JStr (get_method req);
          "path" := JStr (get_path req);
          "status_code" := match out with
                           | inr resp => JNum (get_status_code resp)
                           | inl _ => JNull
                           end;
          "duration" := JNum (t1 - start_time marks);
          "remote_address" := JStr (get_remote_address req) ]} |}.

(** Modelled from the spec: the on-request-end hook of section 4.4: one
    entry unless the request was marked, then the context is cleared, also
    when the handler raised. *)
Definition on_request_end (cfg : Config) (marks : Marks) (t1 : Z)
    (now : instant) (req : Req) (out : exc_trace + Resp) (w : World) : World :=
  let w' := if skip marks then w
            else emit Request (completion_record cfg marks t1 now req out) w in
  {| context := clear (context w'); sink := sink w' |}.

(** What [get_correlation_id()] returns inside the handler of [req]. *)
Definition handler_view (cfg : Config) (generated : string) (t0 : Z)
    (req : Req) (w : World) : string :=
  get_correlation_id (context (on_request_start cfg generated t0 req w).1).

(** Modelled from the spec: one request from start hook to end hook
    (sections 4.1 and 4.4): the handler's records are formatted under the
    request's context, and the correlation id is echoed on the response. *)
Definition handle_request (cfg : Config) (generated : string) (t0 t1 : Z)
    (now : instant) (req : Req) (h : Handler) (w : World) :
    World * (exc_trace + Resp) :=
  let '(w1, marks) := on_request_start cfg generated t0 req w in
  let cid := get_correlation_id (context w1) in
  let '(records, out) := h cid in
  let w2 := foldl (fun w r => emit Log r w) w1 records in
  (on_request_end cfg marks t1 now req out w2,
   match out with
   | inr resp => inr (set_http_header resp (correlation_id_header cfg) cid)
   | inl e => inl e
   end).

(** The lines written between two worlds. *)
Definition emitted (w w' : World) : list (gmap string json) :=
  drop (length (sink w)) (sink w').

(** The request-completion lines among some lines. *)
Definition is_completion (line : gmap string json) : bool :=
  match line !! "type" with
  | Some (JStr s) => String.eqb s "request"
  | _ => false
  end.

(** *** The formatter's output *)

Definition standard_keys : list string :=
  ["written_at"; "level"; "logger"; "module"; "msg"; "type"; "correlation_id"].

Definition exc_keys : list string := ["exc_info"; "filename"].

Lemma standard_not_exc (k : string) : k ∈ standard_keys -> k ∉ exc_keys.
Proof.
  revert k. apply Forall_forall. unfold standard_keys, exc_keys.
  repeat constructor;
    (intros H; repeat (apply elem_of_cons in H as [H|H]; [discriminate|]);
     now apply elem_of_nil in H).
Qed.

Lemma exc_fields_other (r : LogRecord) (k : string) :
  k ∉ exc_keys -> exc_fields r !! k = None.
Proof.
  intros Hk. unfold exc_fields. destruct (exception r); [|apply lookup_empty].
  rewrite !lookup_insert_ne, lookup_singleton_ne; [reflexivity|..];
    intros <-; apply Hk; unfold exc_keys;
    repeat first [apply list_elem_of_here | apply list_elem_of_further].
Qed.


Lemma format_standard ty ctx (r : LogRecord) (k : string) :
  k ∈ standard_keys ->
  format ty ctx r !! k = mandatory_fields ty ctx r !! k
  /\ is_Some (mandatory_fields ty ctx r !! k).
Proof.
  intros Hk. unfold format.
  assert (Hs : is_Some (mandatory_fields ty ctx r !! k)).
  { unfold standard_keys in Hk. unfold mandatory_fields.
    repeat (apply elem_of_cons in Hk as [->|Hk]; [vm_compute; eauto|]).
    now apply elem_of_nil in Hk. }
  split; [|exact Hs].
  rewrite lookup_union_r.
  - destruct Hs as [v Hv]. rewrite Hv. now apply lookup_union_Some_l.
  - now apply exc_fields_other, standard_not_exc.
Qed.

Lemma format_correlation_id ty ctx (r : LogRecord) :
  format ty ctx r !! "correlation_id" = Some (JStr (get_correlation_id ctx)).
Proof.
  destruct (format_standard ty ctx r "correlation_id") as [-> _];
    [unfold standard_keys;
     repeat first [apply list_elem_of_here | apply list_elem_of_further]
    | reflexivity].
Qed.

Lemma format_type ty ctx (r : LogRecord) :
  format ty ctx r !! "type" = Some (JStr (type_name ty)).
Proof.
  destruct (format_standard ty ctx r "type") as [-> _];
    [unfold standard_keys;
     repeat first [apply list_elem_of_here | apply list_elem_of_further]
    | reflexivity].
Qed.






(** *** One request *)

Lemma foldl_emit (records : list LogRecord) (w : World) :
  context (foldl (fun w r => emit Log r w) w records) = context w
  /\ sink (foldl (fun w r => emit Log r w) w records) =
     (sink w ++ map (format Log (context w)) records)%list.
Proof.
  revert w. induction records as [|r records IH]; intros w; simpl.
  - now rewrite app_nil_r.
  - destruct (IH (emit Log r w)) as [-> ->]. simpl.
    now rewrite <- app_assoc.
Qed.

Lemma drop_length_app {A} (l k : list A) : drop (length l) (l ++ k) = k.
Proof. induction l; simpl; auto. Qed.

(** The lines of one request: the handler's records under the request's
    correlation id, then the completion line unless the path is excluded. *)
Lemma emitted_handle_request cfg generated t0 t1 now (req : Req)
    (h : Handler) (w : World) :
  let cid := resolve_correlation_id cfg generated req in
  emitted w (handle_request cfg generated t0 t1 now req h w).1 =
    (map (format Log (Some cid)) (h cid).1 ++
     if is_excluded cfg req then []
     else [format Request (Some cid)
             (completion_record cfg
                {| start_time := t0; skip := is_excluded cfg req |}
                t1 now req (h cid).2)])%list.
Proof.
  cbv zeta. unfold emitted, handle_request, on_request_start,
    set_correlation_id, get_correlation_id; simpl.
  destruct (h (resolve_correlation_id cfg generated req)) as [records out].
  simpl. unfold on_request_end; simpl.
  match goal with |- context [foldl ?f ?w0 records] =>
    destruct (foldl_emit records w0) as [Hc Hs] end.
  simpl in Hc, Hs.
  destruct (is_excluded cfg req); simpl; rewrite ?Hs, ?Hc.
  - rewrite drop_length_app. now rewrite app_nil_r.
  - rewrite <- app_assoc. now rewrite drop_length_app.
Qed.

Lemma is_completion_format ty ctx (r : LogRecord) :
  is_completion (format ty ctx r) =
  match ty with Request => true | Log => false end.
Proof. unfold is_completion. rewrite format_type. now destruct ty. Qed.

Lemma filter_completion_logs ctx (records : list LogRecord) :
  List.filter is_completion (map (format Log ctx) records) = [].
Proof.
  induction records as [|r records IH]; simpl; [reflexivity|].
  now rewrite is_completion_format.
Qed.

Lemma resolve_given cfg generated (req : Req) (V : string) :
  get_http_header req (correlation_id_header cfg) = Some V ->
  V <> "" ->
  resolve_correlation_id cfg generated req = V.
Proof.
  intros Hh HV. unfold resolve_correlation_id. rewrite Hh.
  destruct (decide (V = "")); congruence.
Qed.

Lemma resolve_absent_or_empty cfg generated (req : Req) :
  get_http_header req (correlation_id_header cfg) = None \/
  get_http_header req (correlation_id_header cfg) = Some "" ->
  resolve_correlation_id cfg generated req = generated.
Proof.
  unfold resolve_correlation_id. intros [->| ->]; reflexivity.
Qed.

Lemma lines_correlation_id cfg generated t0 t1 now (req : Req)
    (h : Handler) (w : World) :
  Forall
    (fun line =>
       line !! "correlation_id" =
       Some (JStr (resolve_correlation_id cfg generated req)))
    (emitted w (handle_request cfg generated t0 t1 now req h w).1).
Proof.
  rewrite emitted_handle_request. apply Forall_app. split.
  - apply Forall_forall. intros line Hl.
    apply list_elem_of_In, in_map_iff in Hl as (r & <- & _).
    apply format_correlation_id.
  - destruct (is_excluded cfg req); constructor; [|constructor].
    apply format_correlation_id.
Qed.

(** C1, as amended: when the request carries the configured header with a
    non-empty value [V], the handler sees [V] through [get_correlation_id()],
    every line written while the request is handled (the handler's lines and
    the completion line) has [correlation_id] equal to [V], and a returned
    response carries [V] on the same header. *)
Theorem given_correlation_id_is_adopted cfg generated t0 t1 now (req : Req)
    (h : Handler) (w : World) (V : string) :
  get_http_header req (correlation_id_header cfg) = Some V ->
  V <> "" ->
  handler_view cfg generated t0 req w = V
  /\ Forall (fun line => line !! "correlation_id" = Some (JStr V))
       (emitted w (handle_request cfg generated t0 t1 now req h w).1)
  /\ (forall resp, (h V).2 = inr resp ->
        (handle_request cfg generated t0 t1 now req h w).2 =
        inr (set_http_header resp (correlation_id_header cfg) V)).
Proof.
  intros Hh HV.
  pose proof (resolve_given cfg generated req V Hh HV) as Hres.
  split; [|split].
  - unfold handler_view, on_request_start; simpl. exact Hres.
  - pose proof (lines_correlation_id cfg generated t0 t1 now req h w) as Hl.
    now rewrite Hres in Hl.
  - intros resp Hout. unfold handle_request, on_request_start,
      set_correlation_id, get_correlation_id; simpl.
    rewrite Hres. destruct (h V) as [records out]; simpl in *.
    now rewrite Hout.
Qed.

(** C5: a request whose path matches at least one excluded pattern writes
    no completion line, and a request whose path matches none writes exactly
    one; this holds whatever the handler logs and whether it returns or
    raises. *)
Theorem completion_lines_by_exclusion cfg generated t0 t1 now (req : Req)
    (h : Handler) (w : World) :
  let lines := emitted w (handle_request cfg generated t0 t1 now req h w).1 in
  ((exists pattern, pattern ∈ exclude_url_patterns cfg /\
                    re_search pattern (get_path req) = true) ->
   List.filter is_completion lines = [])
  /\ ((forall pattern, pattern ∈ exclude_url_patterns cfg ->
                       re_search pattern (get_path req) = false) ->
      length (List.filter is_completion lines) = 1)
  /\ length (List.filter is_completion lines) =
     (if is_excluded cfg req then 0 else 1).
Proof.
  cbv zeta. rewrite emitted_handle_request, List.filter_app,
    filter_completion_logs. simpl.
  assert (Hcount :
    length (List.filter is_completion
      (if is_excluded cfg req then []
       else [format Request
               (Some (resolve_correlation_id cfg generated req))
               (completion_record cfg
                  {| start_time := t0; skip := is_excluded cfg req |} t1 now
                  req (h (resolve_correlation_id cfg generated req)).2)]))
    = if is_excluded cfg req then 0 else 1).
  { destruct (is_excluded cfg req); simpl; [reflexivity|].
    now rewrite is_completion_format. }
  split; [|split; [|exact Hcount]].
  - intros (pattern & Hin & Hm).
    assert (He : is_excluded cfg req = true).
    { unfold is_excluded. apply existsb_exists. exists pattern.
      split; [now apply list_elem_of_In | exact Hm]. }
    now rewrite He.
  - intros Hnone.
    assert (He : is_excluded cfg req = false).
    { unfold is_excluded. apply not_true_is_false. intros Hex.
      apply existsb_exists in Hex as (pattern & Hin & Hm).
      apply list_elem_of_In in Hin. rewrite (Hnone pattern Hin) in Hm.
      discriminate. }
    now rewrite Hcount, He.
Qed.


End model.

(** *** The application of [tests/test_fastapi.py]

    The fixture of lines 17-87: requests with a header list, the endpoints
    the tests call, and the one excluded pattern of line 32. *)

Record TestRequest : Type := {
  rq_method : string;
  rq_path : string;
  rq_headers : list (string * string);
  rq_client : string
}.

Record TestResponse : Type := {
  rs_status : Z;
  rs_body : gmap string json;
  rs_headers : list (string * string)
}.

#[export] Instance test_request_adapter : RequestAdapter TestRequest := {|
  get_http_header rq header :=
    snd <$> List.find (fun kv => String.eqb kv.1 header) (rq_headers rq);
  get_method := rq_method;
  get_path := rq_path;
  get_remote_address := rq_client
|}.

#[export] Instance test_response_adapter : ResponseAdapter TestResponse := {|
  set_http_header rs header value :=
    {| rs_status := rs_status rs; rs_body := rs_body rs;
       rs_headers := (header, value) :: rs_headers rs |};
  get_status_code := rs_status
|}.

(** The pattern of line 32 is a caret followed by literal text: it is found
    in the paths that start with that text. *)
Definition caret_prefix (pattern path : string) : bool :=
  match pattern with
  | String "^" literal => String.prefix literal path
  | _ => false
  end.

Definition test_config : Config :=
  {| correlation_id_header := "X-Correlation-Id";
     exclude_url_patterns := ["^/no-request-instrumentation"];
     request_logger := "fastapi-request-logger" |}.

Definition test_record (lvl message : string) (e : gmap string json) :
    LogRecord string string :=
  {| level := lvl; logger := "fastapi-test"; module := "test_fastapi";
     filename := "test_fastapi.py"; msg := message;
     written := "2024-05-06T07:08:09.010Z"; exception := None; extra := e |}.

Definition ok (body : gmap string json) : string + TestResponse :=
  inr {| rs_status := 200; rs_body := body; rs_headers := [] |}.

(** Lines 35-38. *)
Definition log_debug : Handler string string :=
  fun _ => ([test_record "DEBUG" "debug message" ∅], ok ∅).

(** Lines 50-56. *)
Definition extra_property : Handler string string :=
  fun _ =>
    ([test_record "INFO" "test log statement with extra props"
        {[ "props" := JObj {[ "extra_property" := JStr "extra_value" ]};
           "tags" := JArr [JStr "app:name"];
           "extra_property" := JStr "extra_value2" ]}],
     ok ∅).

(** Lines 58-64. *)
Definition extra_property_no_props : Handler string string :=
  fun _ =>
    ([test_record "INFO"
        "test log statement with extra and no 'props' property"
        {[ "tags" := JArr [JStr "app:name"];
           "extra_property" := JStr "extra_value2" ]}],
     ok ∅).

(** Lines 74-76. *)
Definition get_correlation_id_endpoint : Handler string string :=
  fun cid => ([], ok {[ "correlation_id" := JStr cid ]}).

(** Lines 78-80. *)
Definition excluded_from_request_instrumentation : Handler string string :=
  fun _ => ([], ok ∅).

Definition get (path : string) (headers : list (string * string)) :
    TestRequest :=
  {| rq_method := "GET"; rq_path := path; rq_headers := headers;
     rq_client := "testclient" |}.

Definition idle : World := {| context := None; sink := [] |}.

(** One call of the test client: the lines written and the response. *)
Definition call (generated : string) (rq : TestRequest)
    (h : Handler string string) :
    list (gmap string json) * (string + TestResponse) :=
  let r := handle_request string (fun t => t) string (fun e => e)
             caret_prefix test_config generated 100 107
             "2024-05-06T07:08:09.017Z" rq h idle in
  (emitted idle r.1, r.2).

Definition log_lines (lines : list (gmap string json)) :
    list (gmap string json) :=
  List.filter (fun line => negb (is_completion line)) lines.

(** The value of one key on each line. *)
Definition field (key : string) (lines : list (gmap string json)) :
    list (option json) :=
  map (fun line => line !! key) lines.

(** The keys of each line: the seven standard ones, then [more]. *)
Definition has_keys (more : list string) (line : gmap string json) : bool :=
  bool_decide (dom line = list_to_set (standard_keys ++ more)).

Definition a_uuid : string := "16fd2706-8baf-433b-82eb-8c7fada847da".

(** [test_correlation_id_given], lines 111-121. *)
Example test_correlation_id_given :
  let lines :=
    log_lines (call a_uuid
                 (get "/log/levels/debug" [("X-Correlation-Id", "abc-def")])
                 log_debug).1 in
  length lines = 1
  /\ field "correlation_id" lines = [Some (JStr "abc-def")].
Proof. split; vm_compute; reflexivity. Qed.

(** [test_get_correlation_id], lines 140-147. *)
Example test_get_correlation_id :
  (call a_uuid (get "/get-correlation-id" [("X-Correlation-Id", "abc-def")])
     get_correlation_id_endpoint).2 =
  inr {| rs_status := 200;
         rs_body := {[ "correlation_id" := JStr "abc-def" ]};
         rs_headers := [("X-Correlation-Id", "abc-def")] |}.
Proof. vm_compute; reflexivity. Qed.

(** [test_extra_property], lines 150-162. *)
Example test_extra_property :
  let lines :=
    log_lines (call a_uuid (get "/log/extra_property" []) extra_property).1 in
  length lines = 1
  /\ forallb (has_keys ["extra_property"; "tags"]) lines = true
  /\ field "extra_property" lines = [Some (JStr "extra_value")]
  /\ field "tags" lines = [Some (JArr [JStr "app:name"])].
Proof. repeat split; vm_compute; reflexivity. Qed.

(** [test_extra_property_no_props], lines 164-175. *)
Example test_extra_property_no_props :
  let lines :=
    log_lines (call a_uuid (get "/log/extra_property_no_props" [])
                 extra_property_no_props).1 in
  length lines = 1
  /\ forallb (has_keys ["extra_property"; "tags"]) lines = true
  /\ field "extra_property" lines = [Some (JStr "extra_value2")]
  /\ field "tags" lines = [Some (JArr [JStr "app:name"])].
Proof. repeat split; vm_compute; reflexivity. Qed.

(** [test_request_instrumentation], lines 194-204, and
    [test_excluded_from_request_instrumentation], lines 207-217. *)
Example test_request_instrumentation :
  length (List.filter is_completion
            (call a_uuid (get "/log/levels/debug" []) log_debug).1) = 1
  /\ length (List.filter is_completion
               (call a_uuid (get "/no-request-instrumentation" [])
                  excluded_from_request_instrumentation).1) = 0.
Proof. split; vm_compute; reflexivity. Qed.



(** C1, as stated, fails for a header that is present with an empty value:
    section 4.1 treats it as absent, so the handler sees the generated
    identifier and both lines of the request (the handler's and the
    completion line) carry it instead of the header's value. *)
Lemma empty_header_value_is_not_adopted :
  let rq := get "/log/levels/debug" [("X-Correlation-Id", "")] in
  get_http_header rq "X-Correlation-Id" = Some ""
  /\ handler_view caret_prefix test_config a_uuid 100 rq idle = a_uuid
  /\ field "correlation_id" (call a_uuid rq log_debug).1 =
       [Some (JStr a_uuid); Some (JStr a_uuid)]
  /\ ~ Forall (fun line => line !! "correlation_id" = Some (JStr ""))
         (call a_uuid rq log_debug).1.
Proof.
  cbv zeta.
  assert (Hfield :
    field "correlation_id"
      (call a_uuid (get "/log/levels/debug" [("X-Correlation-Id", "")])
         log_debug).1 = [Some (JStr a_uuid); Some (JStr a_uuid)])
    by (vm_compute; reflexivity).
  repeat split; try (vm_compute; reflexivity).
  intros HF.
  apply (proj2 (Forall_map (fun line => line !! "correlation_id")
                  (fun o => o = Some (JStr "")) _)) in HF.
  fold (field "correlation_id"
          (call a_uuid (get "/log/levels/debug" [("X-Correlation-Id", "")])
             log_debug).1) in HF.
  rewrite Hfield in HF. inversion HF as [|o os Ho _]. discriminate Ho.
Qed.

Lemma given_correlation_id_is_adopted_witness :
  let rq := get "/log/levels/debug" [("X-Correlation-Id", "abc-def")] in
  handler_view caret_prefix test_config a_uuid 100 rq idle = "abc-def"
  /\ Forall (fun line => line !! "correlation_id" = Some (JStr "abc-def"))
       (emitted idle
          (handle_request string (fun t => t) string (fun e => e)
             caret_prefix test_config a_uuid 100 107
             "2024-05-06T07:08:09.017Z" rq log_debug idle).1)
  /\ (forall resp, (log_debug "abc-def").2 = inr resp ->
        (handle_request string (fun t => t) string (fun e => e)
           caret_prefix test_config a_uuid 100 107
           "2024-05-06T07:08:09.017Z" rq log_debug idle).2 =
        inr (set_http_header resp "X-Correlation-Id" "abc-def")).
Proof.
  cbv zeta.
  apply (given_correlation_id_is_adopted string (fun t => t) string
           (fun e => e) caret_prefix test_config a_uuid 100 107
           "2024-05-06T07:08:09.017Z"
           (get "/log/levels/debug" [("X-Correlation-Id", "abc-def")])
           log_debug idle "abc-def").
  - vm_compute; reflexivity.
  - discriminate.
Defined.

End core.

(** ** tests/test_fastapi.py: the two patterns the tests match against

    [test_record_format_per_log_level] (lines 106-108) and
    [test_correlation_id_generated] (lines 134-137) pass when [re.match]
    finds their pattern at the start of the field.  Text is 8-bit here, so
    [\d] is the ASCII digits. *)

Module test_fastapi.

Definition newline : ascii := "010".

(** Character classes: [[lo-hi]], [\d], [[0-9a-f]], [[0-5]], [[089ab]], a
    literal character, and [.] (anything but a newline). *)
Definition range (lo hi c : ascii) : bool :=
  ((N_of_ascii lo <=? N_of_ascii c) && (N_of_ascii c <=? N_of_ascii hi))%N.

Definition digit : ascii -> bool := range "0" "9".

Definition hex (c : ascii) : bool := range "0" "9" c || range "a" "f" c.

Definition version_digit : ascii -> bool := range "0" "5".

Definition variant_digit (c : ascii) : bool :=
  existsb (Ascii.eqb c) ["0"; "8"; "9"; "a"; "b"]%char.

Definition lit (a c : ascii) : bool := Ascii.eqb a c.

Definition dot (c : ascii) : bool := negb (Ascii.eqb c newline).

(** The operators the two patterns use: a class, a class repeated any number
    of times ([p*]), sequence, an optional group ([(...)?]), a counted
    repetition ([r{n}]) and the end anchor. *)
Inductive regex : Type :=
| Eps
| Cls (p : ascii -> bool)
| Many (p : ascii -> bool)
| Seq (r1 r2 : regex)
| Opt (r : regex)
| Rep (n : nat) (r : regex)
| Dollar.

(** [$] without [re.MULTILINE]: at the end of the text, or just before a
    newline that ends the text. *)
Definition at_end (s : string) : bool :=
  match s with
  | EmptyString => true
  | String c EmptyString => Ascii.eqb c newline
  | _ => false
  end.

(** [p*] followed by [k]: [k] accepts the text, or the text starts with a
    character of [p] and the same holds of what follows it. *)
Fixpoint many (p : ascii -> bool) (k : string -> bool) (s : string) : bool :=
  k s || match s with
         | String c s' => p c && many p k s'
         | EmptyString => false
         end.

(** Whether [r] matches a prefix of [s] after which [k] accepts the rest. *)
Fixpoint accept (r : regex) (s : string) (k : string -> bool) : bool :=
  match r with
  | Eps => k s
  | Cls p =>
      match s with
      | String c s' => p c && k s'
      | EmptyString => false
      end
  | Many p => many p k s
  | Seq r1 r2 => accept r1 s (fun s' => accept r2 s' k)
  | Opt r1 => accept r1 s k || k s
  | Rep n r1 =>
      (fix rep (n : nat) (s : string) : bool :=
         match n with
         | O => k s
         | S n' => accept r1 s (rep n')
         end) n s
  | Dollar => at_end s && k s
  end.

(** [re.match(pattern, s)] as a truth value: the pattern matches at the
    start of [s]. *)
Definition re_match (pattern : regex) (s : string) : bool :=
  accept pattern s (fun _ => true).

Definition cat (rs : list regex) : regex := foldr Seq Eps rs.

(** Line 135:
    [^[0-9a-f]{8}-[0-9a-f]{4}-[0-5][0-9a-f]{3}-[089ab][0-9a-f]{3}-[0-9a-f]{12}$] *)
Definition uuid_body : regex :=
  cat [ Rep 8 (Cls hex); Cls (lit "-");
        Rep 4 (Cls hex); Cls (lit "-");
        Cls version_digit; Rep 3 (Cls hex); Cls (lit "-");
        Cls variant_digit; Rep 3 (Cls hex); Cls (lit "-");
        Rep 12 (Cls hex) ].

Definition uuid_pattern : regex := Seq uuid_body Dollar.

(** Line 107: four digits, [-], two digits, [-], two digits, [T], two
    digits, [:], two digits, [:], two digits; then an optional group of a
    literal dot, one or more digits and any run of characters other than a
    newline; then the end anchor.  [\d+] is one digit followed by any
    number of digits. *)
Definition iso_head : regex :=
  cat [ Rep 4 (Cls digit); Cls (lit "-"); Cls digit; Cls digit;
        Cls (lit "-"); Cls digit; Cls digit; Cls (lit "T");
        Cls digit; Cls digit; Cls (lit ":"); Cls digit; Cls digit;
        Cls (lit ":"); Cls digit; Cls digit ].

Definition iso_fraction : regex :=
  cat [ Cls (lit "."); Cls digit; Many digit; Many dot ].

Definition iso_pattern : regex :=
  Seq iso_head (Seq (Opt iso_fraction) Dollar).

Example uuid_pattern_examples :
  re_match uuid_pattern "16fd2706-8baf-433b-82eb-8c7fada847da" = true
  /\ re_match uuid_pattern "abc-def" = false
  /\ re_match uuid_pattern "16FD2706-8BAF-433B-82EB-8C7FADA847DA" = false
  /\ re_match uuid_pattern "16fd2706-8baf-433b-82eb-8c7fada847da0" = false.
Proof. repeat split; vm_compute; reflexivity. Qed.

Example iso_pattern_examples :
  re_match iso_pattern "2024-05-06T07:08:09.010Z" = true
  /\ re_match iso_pattern "2024-05-06T07:08:09" = true
  /\ re_match iso_pattern "2024-05-06T07:08:09Z" = false
  /\ re_match iso_pattern "2024-05-06 07:08:09" = false.
Proof. repeat split; vm_compute; reflexivity. Qed.

(** *** Patterns that are a fixed run of classes *)

(** The rest of [s] after one character of each class of [cs], in order. *)
Fixpoint eat (cs : list (ascii -> bool)) (s : string) : option string :=
  match cs with
  | [] => Some s
  | p :: cs' =>
      match s with
      | String c s' => if p c then eat cs' s' else None
      | EmptyString => None
      end
  end.

(** The classes of a pattern built from classes, sequences and counted
    repetitions only. *)
Fixpoint flat (r : regex) : option (list (ascii -> bool)) :=
  match r with
  | Eps => Some []
  | Cls p => Some [p]
  | Seq r1 r2 =>
      match flat r1, flat r2 with
      | Some a, Some b => Some (a ++ b)%list
      | _, _ => None
      end
  | Rep n r1 =>
      match flat r1 with
      | Some a => Some (concat (repeat a n))
      | None => None
      end
  | _ => None
  end.

Definition then_ (o : option string) (k : string -> bool) : bool :=
  match o with
  | Some rest => k rest
  | None => false
  end.

Lemma eat_app (a b : list (ascii -> bool)) (s : string) :
  eat (a ++ b)%list s = match eat a s with
                   | Some rest => eat b rest
                   | None => None
                   end.
Proof.
  revert s. induction a as [|p a IH]; intros s; simpl; [reflexivity|].
  destruct s as [|c s]; [reflexivity|]. destruct (p c); [apply IH|reflexivity].
Qed.

Lemma accept_flat (r : regex) :
  forall cs, flat r = Some cs ->
  forall s k, accept r s k = then_ (eat cs s) k.
Proof.
  induction r as [|p|p|r1 IH1 r2 IH2|r IH|n r IH|]; intros cs Hcs s k;
    simpl in Hcs; try discriminate.
  - injection Hcs as <-. reflexivity.
  - injection Hcs as <-. simpl. destruct s as [|c s]; [reflexivity|].
    now destruct (p c).
  - destruct (flat r1) as [a|]; [|discriminate].
    destruct (flat r2) as [b|]; [|discriminate]. injection Hcs as <-.
    simpl. rewrite (IH1 a eq_refl), eat_app.
    destruct (eat a s) as [rest|]; simpl; [|reflexivity].
    apply (IH2 b eq_refl).
  - destruct (flat r) as [a|]; [|discriminate]. injection Hcs as <-.
    simpl. revert s. induction n as [|n IHn]; intros s; simpl; [reflexivity|].
    rewrite (IH a eq_refl), eat_app.
    destruct (eat a s) as [rest|]; simpl; [|reflexivity]. apply IHn.
Qed.

(** [eat] read by position: the text starts with as many characters as
    there are classes, the [i]-th one in the [i]-th class. *)
Lemma eat_by_position (cs : list (ascii -> bool)) (s rest : string) :
  eat cs s = Some rest <->
  exists body,
    s = body ++ rest
    /\ String.length body = length cs
    /\ (forall i p c,
          cs !! i = Some p -> String.get i body = Some c -> p c = true).
Proof.
  revert s. induction cs as [|p cs IH]; intros s; simpl.
  - split.
    + intros [= ->]. exists "". repeat split. intros i q c Hq. discriminate.
    + intros (body & -> & Hlen & _). destruct body; [reflexivity|discriminate].
  - split.
    + destruct s as [|c s]; [discriminate|].
      destruct (p c) eqn:Hpc; [|discriminate]. intros He.
      apply IH in He as (body & -> & Hlen & Hpos).
      exists (String c body). repeat split; [simpl; congruence|].
      intros [|i] q d Hq Hd; simpl in Hq, Hd.
      * injection Hq as <-. injection Hd as <-. exact Hpc.
      * exact (Hpos i q d Hq Hd).
    + intros (body & -> & Hlen & Hpos).
      destruct body as [|c body]; [discriminate|]. simpl.
      rewrite (Hpos 0 p c eq_refl eq_refl). apply IH.
      exists body. repeat split; [simpl in Hlen; congruence|].
      intros i q d Hq Hd. exact (Hpos (S i) q d Hq Hd).
Qed.

Lemma eat_exact (cs : list (ascii -> bool)) (body rest : string) :
  String.length body = length cs ->
  eat cs (body ++ rest) = match eat cs body with
                          | Some _ => Some rest
                          | None => None
                          end.
Proof.
  revert body. induction cs as [|p cs IH]; intros body Hlen; simpl.
  - destruct body; [reflexivity|discriminate].
  - destruct body as [|c body]; [discriminate|]. simpl.
    destruct (p c); [|reflexivity]. apply IH. simpl in Hlen. congruence.
Qed.

Lemma get_lt (i : nat) (s : string) (c : ascii) :
  String.get i s = Some c -> i < String.length s.
Proof.
  revert i. induction s as [|d s IH]; intros i H; [discriminate|].
  destruct i as [|i]; simpl in *; [lia|]. apply IH in H. lia.
Qed.

(** The same with the classes given by a function of the position. *)
Lemma eat_classes_at (cs : list (ascii -> bool))
    (class_at : nat -> ascii -> bool) :
  (forall i p, cs !! i = Some p -> forall c, p c = class_at i c) ->
  forall s rest,
    eat cs s = Some rest <->
    exists body,
      s = body ++ rest
      /\ String.length body = length cs
      /\ (forall i c, String.get i body = Some c -> class_at i c = true).
Proof.
  intros Hat s rest. rewrite eat_by_position. split.
  - intros (body & -> & Hlen & Hpos). exists body. repeat split; [exact Hlen|].
    intros i c Hc.
    destruct (lookup_lt_is_Some_2 cs i) as [p Hp];
      [rewrite <- Hlen; exact (get_lt i body c Hc)|].
    rewrite <- (Hat i p Hp). exact (Hpos i p c Hp Hc).
  - intros (body & -> & Hlen & Hpos). exists body. repeat split; [exact Hlen|].
    intros i p c Hp Hc. rewrite (Hat i p Hp). exact (Hpos i c Hc).
Qed.

(** *** The UUID pattern of line 135 *)

Definition uuid_classes : list (ascii -> bool) :=
  (repeat hex 8 ++ [lit "-"] ++ repeat hex 4 ++ [lit "-"]
   ++ [version_digit] ++ repeat hex 3 ++ [lit "-"]
   ++ [variant_digit] ++ repeat hex 3 ++ [lit "-"] ++ repeat hex 12)%list.

(** What the pattern asks of the character at position [i], from 0. *)
Definition uuid_class_at (i : nat) (c : ascii) : bool :=
  if existsb (Nat.eqb i) [8; 13; 18; 23]%nat then lit "-" c
  else if (i =? 14)%nat then version_digit c
  else if (i =? 19)%nat then variant_digit c
  else hex c.

Lemma flat_uuid_body : flat uuid_body = Some uuid_classes.
Proof. reflexivity. Qed.

Lemma uuid_classes_at (i : nat) (p : ascii -> bool) :
  uuid_classes !! i = Some p -> forall c, p c = uuid_class_at i c.
Proof.
  unfold uuid_classes. simpl.
  do 36 (destruct i as [|i]; [intros [= <-] c; reflexivity|]).
  discriminate.
Qed.

Lemma re_match_uuid (s : string) :
  re_match uuid_pattern s =
  then_ (eat uuid_classes s) (fun rest => at_end rest).
Proof.
  unfold re_match, uuid_pattern.
  change (accept (Seq uuid_body Dollar) s (fun _ => true))
    with (accept uuid_body s (fun s' => at_end s' && true)).
  rewrite (accept_flat uuid_body uuid_classes flat_uuid_body).
  destruct (eat uuid_classes s); simpl; [apply andb_true_r | reflexivity].
Qed.

(** X10: the test of line 134 accepts a correlation id exactly when it is 36
    characters, optionally followed by one final newline, with [-] at
    positions 8, 13, 18 and 23, one of [0]..[5] at position 14, one of
    [0], [8], [9], [a], [b] at position 19, and a digit or one of [a]..[f]
    everywhere else.  The version digit is therefore not held to 4. *)
Theorem uuid_pattern_by_position (s : string) :
  re_match uuid_pattern s = true <->
  exists body rest,
    s = body ++ rest
    /\ at_end rest = true
    /\ String.length body = 36
    /\ (forall i c, String.get i body = Some c -> uuid_class_at i c = true).
Proof.
  rewrite re_match_uuid. split.
  - destruct (eat uuid_classes s) as [rest|] eqn:He; simpl; [|discriminate].
    intros Hend.
    apply (eat_classes_at uuid_classes uuid_class_at uuid_classes_at) in He
      as (body & -> & Hlen & Hpos).
    exists body, rest. repeat split; assumption.
  - intros (body & rest & -> & Hend & Hlen & Hpos).
    assert (He : eat uuid_classes (body ++ rest) = Some rest).
    { apply (eat_classes_at uuid_classes uuid_class_at uuid_classes_at).
      exists body. repeat split; assumption. }
    rewrite He. exact Hend.
Qed.

(** *** The timestamp pattern of line 107 *)

Definition iso_classes : list (ascii -> bool) :=
  (repeat digit 4
   ++ [lit "-"; digit; digit; lit "-"; digit; digit; lit "T";
       digit; digit; lit ":"; digit; digit; lit ":"; digit; digit])%list.

(** What the pattern asks of the character at position [i] of the first
    nineteen. *)
Definition iso_class_at (i : nat) (c : ascii) : bool :=
  if existsb (Nat.eqb i) [4; 7]%nat then lit "-" c
  else if (i =? 10)%nat then lit "T" c
  else if existsb (Nat.eqb i) [13; 16]%nat then lit ":" c
  else digit c.

(** A run of characters other than newlines, up to the end of the text or
    to a newline that ends it. *)
Fixpoint line (s : string) : bool :=
  at_end s || match s with
              | String c s' => dot c && line s'
              | EmptyString => false
              end.

(** What may follow the seconds: nothing, or a dot, a digit and a line. *)
Definition after_seconds (rest : string) : bool :=
  match rest with
  | String c (String d tail) => lit "." c && (digit d && line tail)
  | _ => false
  end
  || at_end rest.

Lemma flat_iso_head : flat iso_head = Some iso_classes.
Proof. reflexivity. Qed.

Lemma iso_classes_at (i : nat) (p : ascii -> bool) :
  iso_classes !! i = Some p -> forall c, p c = iso_class_at i c.
Proof.
  unfold iso_classes. simpl.
  do 19 (destruct i as [|i]; [intros [= <-] c; reflexivity|]).
  discriminate.
Qed.

Lemma digit_is_dot (c : ascii) : digit c = true -> dot c = true.
Proof.
  destruct c as [[] [] [] [] [] [] [] []]; vm_compute; congruence.
Qed.

Lemma many_dot_line (s : string) :
  many dot (fun s' => at_end s' && true) s = line s.
Proof.
  induction s as [|c s IH]; simpl; [reflexivity|].
  now rewrite IH, andb_true_r.
Qed.

(** [\d+.*] and [\d.*] accept the same texts: the further digits are
    characters the dot accepts as well. *)
Lemma many_digit_then_dot (k : string -> bool) (s : string) :
  many digit (many dot k) s = many dot k s.
Proof.
  induction s as [|c s IH]; simpl.
  - now rewrite !orb_false_r.
  - rewrite IH. destruct (k (String c s)); simpl; [reflexivity|].
    destruct (digit c) eqn:Hd; simpl.
    + rewrite (digit_is_dot c Hd). simpl. now destruct (many dot k s).
    + now rewrite orb_false_r.
Qed.

Lemma re_match_iso (s : string) :
  re_match iso_pattern s = then_ (eat iso_classes s) after_seconds.
Proof.
  unfold re_match, iso_pattern.
  change (accept (Seq iso_head (Seq (Opt iso_fraction) Dollar)) s
            (fun _ => true))
    with (accept iso_head s
            (fun s' => accept (Seq (Opt iso_fraction) Dollar) s'
                         (fun _ => true))).
  rewrite (accept_flat iso_head iso_classes flat_iso_head).
  destruct (eat iso_classes s) as [rest|]; simpl; [|reflexivity].
  unfold after_seconds. f_equal; [|apply andb_true_r].
  destruct rest as [|c [|d tail]]; simpl;
    rewrite ?andb_false_r; try reflexivity.
  now rewrite many_digit_then_dot, many_dot_line.
Qed.

(** X11: on 8-bit text (every character a code below 256, where [\d]
    accepts exactly the ten ASCII digits), the test of line 106 accepts a
    [written_at] exactly when it starts
    with nineteen characters of the shape [dddd-dd-ddTdd:dd:dd] ([d] a
    digit) and what follows is nothing, one final newline, or a dot, a
    digit and any characters other than newlines up to the end or a final
    newline.  It does not bound the fields (a month [99] passes). *)
Theorem iso_pattern_by_position (s : string) :
  re_match iso_pattern s = true <->
  exists head rest,
    s = head ++ rest
    /\ String.length head = 19
    /\ (forall i c, String.get i head = Some c -> iso_class_at i c = true)
    /\ (at_end rest = true
        \/ exists d tail,
             rest = String "." (String d tail)
             /\ digit d = true /\ line tail = true).
Proof.
  rewrite re_match_iso. split.
  - destruct (eat iso_classes s) as [rest|] eqn:He; simpl; [|discriminate].
    intros Hafter.
    apply (eat_classes_at iso_classes iso_class_at iso_classes_at) in He
      as (head & -> & Hlen & Hpos).
    exists head, rest. repeat split; try assumption.
    unfold after_seconds in Hafter.
    apply orb_true_iff in Hafter as [Hfrac|Hend]; [right|now left].
    destruct rest as [|c [|d tail]]; try discriminate.
    apply andb_true_iff in Hfrac as [Hc Hrest].
    apply andb_true_iff in Hrest as [Hd Hline].
    apply Ascii.eqb_eq in Hc. subst c. eauto.
  - intros (head & rest & -> & Hlen & Hpos & Hrest).
    assert (He : eat iso_classes (head ++ rest) = Some rest).
    { apply (eat_classes_at iso_classes iso_class_at iso_classes_at).
      exists head. repeat split; assumption. }
    rewrite He. simpl. unfold after_seconds.
    destruct Hrest as [Hend|(d & tail & -> & Hd & Hline)].
    + rewrite Hend. apply orb_true_r.
    + simpl. now rewrite Hd, Hline.
Qed.

(** X12: a text whose twentieth character is neither a dot nor a newline
    that ends it fails the test of line 106, whatever its first nineteen
    characters: a zone designator written straight after the seconds
    ([...T07:08:09Z], [...T07:08:09+00:00]) is not accepted. *)
Theorem iso_pattern_needs_fraction_before_suffix (head tail : string)
    (c : ascii) :
  String.length head = 19 ->
  c <> "."%char ->
  String c tail <> String newline "" ->
  re_match iso_pattern (head ++ String c tail) = false.
Proof.
  intros Hlen Hc Hnl. rewrite re_match_iso.
  rewrite (eat_exact iso_classes head (String c tail)) by exact Hlen.
  destruct (eat iso_classes head); [|reflexivity]. simpl.
  unfold after_seconds. apply orb_false_iff. split.
  - destruct tail as [|d tail]; [reflexivity|].
    apply andb_false_iff. left. unfold lit. apply Ascii.eqb_neq. congruence.
  - simpl. destruct tail as [|d tail]; [|reflexivity].
    apply Ascii.eqb_neq. intros ->. now apply Hnl.
Qed.

Lemma iso_pattern_needs_fraction_before_suffix_witness :
  re_match iso_pattern ("2024-05-06T07:08:09" ++ "+00:00") = false.
Proof.
  apply (iso_pattern_needs_fraction_before_suffix "2024-05-06T07:08:09"
           "00:00" "+").
  - reflexivity.
  - discriminate.
  - discriminate.
Defined.

End test_fastapi.
